(** * Acquisitions API: user accounts, sign-up / sign-in and user CRUD

    A shallow embedding of the authentication and user-management flow:
    the services ([auth.service.js], [users.services.js]), the HTTP
    controllers ([auth.controller.js], [users.controller.js]), the
    authentication middleware and the users router.

    The [users] table is a list of rows together with the SERIAL sequence
    of its primary key.  Database statements and services live in a small
    state-and-exception monad over that table.  The [Error]s the
    application throws are represented by their [message], because the
    controllers dispatch on the message text; a query that PostgreSQL
    rejects (a second row with the same email, an id outside the 32-bit
    range of the id column) and a [TypeError] are kept apart from them.
    Third-party pieces (bcrypt, the JWT helper, the Zod schemas) are
    section variables. *)

From Stdlib Require Import ZArith List String Ascii Bool Lia.
Import ListNotations.
Open Scope string_scope.
Open Scope Z_scope.

(** ** JSON values: request and response bodies

    [JUndefined] is JavaScript's [undefined]: what [req.body] is when no
    body was parsed, and what [JSON.stringify] leaves out of an object. *)

#[local] Set Warnings "-register-all".

Inductive Json : Type :=
| JNull
| JBool (b : bool)
| JNum (n : Z)
| JStr (s : string)
| JArr (items : list Json)
| JObj (fields : list (string * Json))
| JUndefined.

(** [mentions k j]: some object inside [j], at any depth, has a field [k]. *)
Fixpoint mentions (k : string) (j : Json) : bool :=
  match j with
  | JArr items => existsb (mentions k) items
  | JObj fields =>
      existsb (fun kv : string * Json =>
                 let (k', v) := kv in String.eqb k' k || mentions k v) fields
  | _ => false
  end.

(** [occurs s j]: the string value [s] occurs somewhere inside [j]. *)
Fixpoint occurs (s : string) (j : Json) : bool :=
  match j with
  | JStr s' => String.eqb s' s
  | JArr items => existsb (occurs s) items
  | JObj fields => existsb (fun kv : string * Json => let (_, v) := kv in occurs s v) fields
  | _ => false
  end.

Fixpoint assoc {A : Type} (k : string) (l : list (string * A)) : option A :=
  match l with
  | [] => None
  | (k', v) :: l' => if String.eqb k' k then Some v else assoc k l'
  end.

(** Property access [j.k]; [None] stands for [undefined]. *)
Definition get (k : string) (j : Json) : option Json :=
  match j with
  | JObj fields => assoc k fields
  | _ => None
  end.

Fixpoint get_path (ks : list string) (j : Json) : option Json :=
  match ks with
  | [] => Some j
  | k :: ks' => match get k j with Some j' => get_path ks' j' | None => None end
  end.

(** [b.k] throws a TypeError exactly when [b] is [undefined] or [null]. *)
Definition nullish (b : Json) : bool :=
  match b with
  | JUndefined | JNull => true
  | _ => false
  end.

(** JavaScript truthiness of a string: every string but the empty one. *)
Definition truthy (s : string) : bool := negb (String.eqb s "").

Definition truthy_opt (o : option string) : bool :=
  match o with Some s => truthy s | None => false end.

(** ** The [users] table (user.model.js; columns as in the README schema) *)

Module users.
Record row : Type := mk {
  id : Z;
  name : string;
  email : string;
  password : string;
  role : string;
  created_at : Z;
  updated_at : Z
}.

Definition eqb (a b : row) : bool :=
  Z.eqb (id a) (id b) && String.eqb (name a) (name b)
  && String.eqb (email a) (email b) && String.eqb (password a) (password b)
  && String.eqb (role a) (role b) && Z.eqb (created_at a) (created_at b)
  && Z.eqb (updated_at a) (updated_at b).
End users.

(** The database: the rows of [users] in storage order and the next value
    of the sequence behind [id SERIAL PRIMARY KEY]. *)
Record DB : Type := mkDB {
  users_rows : list users.row;
  users_id_seq : Z
}.

(** [eq(users.email, email)] and [eq(users.id, id)] *)
Definition eq_email (e : string) (r : users.row) : bool := String.eqb (users.email r) e.
Definition eq_id (i : Z) (r : users.row) : bool := Z.eqb (users.id r) i.

(** ** Exceptions and the database monad *)

(** What PostgreSQL rejected a statement for. *)
Inductive Failure : Type :=
| UniqueViolation
| OutOfRange.

(** A thrown error: an [Error] made by the application with its
    [message], the error of a failed query, or the [TypeError] of reading
    a property of [undefined] or [null].  The messages of the last two are
    composed by the driver ("Failed query: ...") and by the engine; of
    them the model keeps only that they are none of the texts the
    controllers compare [err.message] with. *)
Inductive Error : Type :=
| Message (text : string)
| FailedQuery (cause : Failure)
| TypeError (property : string).

Coercion Message : string >-> Error.

(** [err.message === text] *)
Definition has_message (err : Error) (text : string) : bool :=
  match err with
  | Message t => String.eqb t text
  | FailedQuery _ | TypeError _ => false
  end.

Inductive Result (A : Type) : Type :=
| Ok (a : A)
| Throw (err : Error).
Arguments Ok {A} a.
Arguments Throw {A} err.

Definition Db (A : Type) : Type := DB -> Result A * DB.

Definition ret {A : Type} (a : A) : Db A := fun db => (Ok a, db).

Definition throw {A : Type} (err : Error) : Db A := fun db => (Throw err, db).

Definition bind {A B : Type} (m : Db A) (k : A -> Db B) : Db B :=
  fun db =>
    match m db with
    | (Ok a, db') => k a db'
    | (Throw e, db') => (Throw e, db')
    end.

(** [try { m } catch (e) { h e }] *)
Definition try_catch {A : Type} (m : Db A) (h : Error -> Db A) : Db A :=
  fun db =>
    match m db with
    | (Ok a, db') => (Ok a, db')
    | (Throw e, db') => h e db'
    end.

Declare Scope db_scope.
Delimit Scope db_scope with db.
Notation "x <- m ;; k" := (bind m (fun x => k))
  (at level 100, m at next level, right associativity) : db_scope.
Open Scope db_scope.

(** ** Statements issued through the ORM *)

(** [db.select().from(users).where(p).limit(n)] *)
Definition select_from_users_where (p : users.row -> bool) (limit : nat)
  : Db (list users.row) :=
  fun db => (Ok (firstn limit (filter p (users_rows db))), db).

(** [db.select().from(users)] *)
Definition select_from_users : Db (list users.row) :=
  fun db => (Ok (users_rows db), db).

(** The two ways a statement on [users] fails: a second row with the same
    [email], and an id outside the range of the column's type. *)
Definition unique_violation : Error := FailedQuery UniqueViolation.

Definition out_of_range : Error := FailedQuery OutOfRange.

(** [users.id] is [SERIAL], a 32-bit integer: PostgreSQL rejects a
    statement that compares it with a number outside that range. *)
Definition int4 (i : Z) : bool := (-2147483648 <=? i) && (i <=? 2147483647).

(** [db.select().from(users).where(eq(users.id, id)).limit(n)] *)
Definition select_from_users_where_id (i : Z) (limit : nat) : Db (list users.row) :=
  fun db =>
    if int4 i then select_from_users_where (eq_id i) limit db
    else (Throw out_of_range, db).

(** The object given to [.values(...)] *)
Record NewUser : Type := mkNewUser {
  nu_name : string;
  nu_email : string;
  nu_password : string;
  nu_role : string
}.

(** [db.insert(users).values(v).returning(...)]: the id comes from the
    sequence (which advances even when the statement fails), both
    timestamps default to the current time, and the UNIQUE constraint on
    [email] rejects a second row with the same address. *)
Definition insert_into_users (now : Z) (v : NewUser) : Db (list users.row) :=
  fun db =>
    let i := users_id_seq db in
    if existsb (eq_email (nu_email v)) (users_rows db)
    then (Throw unique_violation, mkDB (users_rows db) (i + 1))
    else
      let r := users.mk i (nu_name v) (nu_email v) (nu_password v) (nu_role v) now now in
      (Ok [r], mkDB (users_rows db ++ [r]) (i + 1)).

(** The validated body of an update: every field is optional. *)
Record Patch : Type := mkPatch {
  p_name : option string;
  p_email : option string;
  p_password : option string;
  p_role : option string
}.

Definition or_else {A : Type} (o : option A) (d : A) : A :=
  match o with Some a => a | None => d end.

(** [.set({...updates, updated_at: now})] on one row: absent fields keep
    their stored value. *)
Definition set_row (updates : Patch) (now : Z) (r : users.row) : users.row :=
  users.mk (users.id r)
           (or_else (p_name updates) (users.name r))
           (or_else (p_email updates) (users.email r))
           (or_else (p_password updates) (users.password r))
           (or_else (p_role updates) (users.role r))
           (users.created_at r)
           now.

(** Another row (one the statement does not touch) already holds the
    address the patch wants to store. *)
Definition email_conflict (updates : Patch) (i : Z) (rows : list users.row) : bool :=
  match p_email updates with
  | Some e => existsb (fun r => negb (eq_id i r) && eq_email e r) rows
  | None => false
  end.

(** [db.update(users).set(updateData).where(eq(users.id, id)).returning(...)] *)
Definition update_users_set_where_id (updates : Patch) (now : Z) (i : Z)
  : Db (list users.row) :=
  fun db =>
    let rows := users_rows db in
    if negb (int4 i) then (Throw out_of_range, db)
    else if existsb (eq_id i) rows && email_conflict updates i rows
    then (Throw unique_violation, db)
    else
      let rows' := map (fun r => if eq_id i r then set_row updates now r else r) rows in
      (Ok (filter (eq_id i) rows'), mkDB rows' (users_id_seq db)).

(** [db.delete(users).where(eq(users.id, id)).returning(...)] *)
Definition delete_from_users_where_id (i : Z) : Db (list users.row) :=
  fun db =>
    let rows := users_rows db in
    if negb (int4 i) then (Throw out_of_range, db)
    else
      (Ok (filter (eq_id i) rows),
       mkDB (filter (fun r => negb (eq_id i r)) rows) (users_id_seq db)).

(** ** Values exchanged between the layers *)

(** The payload of the token: [{id, email, role}] *)
Record Claims : Type := mkClaims {
  claim_id : Z;
  claim_email : string;
  claim_role : string
}.

(** [validationResult.data] of the sign-up and sign-in schemas *)
Record SignupData : Type := mkSignupData {
  sd_name : string;
  sd_email : string;
  sd_password : string;
  sd_role : option string
}.

Record SignInData : Type := mkSignInData {
  si_email : string;
  si_password : string
}.

(** What [createUser] and [authenticateUser] return:
    [{id, name, email, role, created_at}] *)
Record AuthUser : Type := mkAuthUser {
  au_id : Z;
  au_name : string;
  au_email : string;
  au_role : string;
  au_created_at : Z
}.

(** What [getAllUsers], [getUserById] and [updateUser] return:
    [{id, email, name, role, created_at, updated_at}] *)
Record UserView : Type := mkUserView {
  uv_id : Z;
  uv_email : string;
  uv_name : string;
  uv_role : string;
  uv_created_at : Z;
  uv_updated_at : Z
}.

(** What [deleteUser] returns: [{id, name, email, role}] *)
Record DeletedUser : Type := mkDeletedUser {
  du_id : Z;
  du_name : string;
  du_email : string;
  du_role : string
}.

Definition auth_user (r : users.row) : AuthUser :=
  mkAuthUser (users.id r) (users.name r) (users.email r) (users.role r)
             (users.created_at r).

Definition user_view (r : users.row) : UserView :=
  mkUserView (users.id r) (users.email r) (users.name r) (users.role r)
             (users.created_at r) (users.updated_at r).

Definition deleted_user (r : users.row) : DeletedUser :=
  mkDeletedUser (users.id r) (users.name r) (users.email r) (users.role r).

(** ** HTTP requests and responses *)

Record Request : Type := mkRequest {
  req_cookies : option (list (string * string));
  req_params_id : string;
  req_body : Json;
  req_user : option Claims
}.

Record Response : Type := mkResponse {
  status : Z;
  body : Json;
  res_cookies : list (string * string)
}.

(** A controller either sends a response or forwards the error to the
    catch-all handler with [next(e)]. *)
Inductive Outcome : Type :=
| Sent (res : Response)
| NextErr (err : Error).

Definition json (code : Z) (b : Json) : Response := mkResponse code b [].

Definition status_of (o : Outcome) : option Z :=
  match o with Sent res => Some (status res) | NextErr _ => None end.

Definition body_of (o : Outcome) : option Json :=
  match o with Sent res => Some (body res) | NextErr _ => None end.

(** The user objects as they are serialised into response bodies. *)
Definition UserView_json (u : UserView) : Json :=
  JObj [("id", JNum (uv_id u)); ("email", JStr (uv_email u));
        ("name", JStr (uv_name u)); ("role", JStr (uv_role u));
        ("created_at", JNum (uv_created_at u));
        ("updated_at", JNum (uv_updated_at u))].

Definition DeletedUser_json (u : DeletedUser) : Json :=
  JObj [("id", JNum (du_id u)); ("name", JStr (du_name u));
        ("email", JStr (du_email u)); ("role", JStr (du_role u))].

(** [{..., user: u}] where [u] may be [undefined]: the key is then left out
    of the serialised body. *)
Definition with_user (fields : list (string * Json)) (u : option Json) : Json :=
  match u with
  | Some j => JObj (fields ++ [("user", j)])
  | None => JObj fields
  end.

(** ** Third-party interfaces *)

(** bcrypt: [hashSync password rounds] draws a fresh salt, passed here
    explicitly; [compare password hash]. *)
Class Bcrypt : Type := {
  Salt : Type;
  bcrypt_hashSync : string -> Z -> Salt -> string;
  bcrypt_compare : string -> string -> bool
}.

(** The token helper ([#utils/jwt.js]): [sign] a payload, [verify] a token
    ([None] when [verify] throws). *)
Class Jwt : Type := {
  jwt_sign : Claims -> string;
  jwt_verify : string -> option Claims
}.

(** The Zod schemas ([#validations/*.js]) with [safeParse] and the error
    formatter ([#utils/format.js]): [inl] is a failed parse, [inr] carries
    [validationResult.data]. *)
Class Validation : Type := {
  ZodError : Type;
  formatValidationError : ZodError -> Json;
  signupSchema : Json -> ZodError + SignupData;
  signInSchema : Json -> ZodError + SignInData;
  userIdSchema : string -> ZodError + Z;
  updateUserSchema : Json -> ZodError + Patch
}.

Section Model.
Context {bcrypt : Bcrypt} {jwttoken : Jwt} {zod : Validation}.

(** *** services/auth.service.js *)

Definition hashPassword (salt : Salt) (password : string) : string :=
  bcrypt_hashSync password 12 salt.

Definition comparePassword (password hashedPassword : string) : bool :=
  bcrypt_compare password hashedPassword.

Definition authenticateUser (d : SignInData) : Db AuthUser :=
  try_catch
    (existingUser <- select_from_users_where (eq_email (si_email d)) 1 ;;
     match existingUser with
     | [] => throw "User not found"
     | user :: _ =>
         let isPasswordValid := comparePassword (si_password d) (users.password user) in
         if negb isPasswordValid then throw "Invalid password"
         else ret (mkAuthUser (users.id user) (users.name user) (users.email user)
                              (users.role user) (users.created_at user))
     end)
    (fun e => throw e).

Definition createUser (now : Z) (salt : Salt) (d : SignupData) : Db AuthUser :=
  let role := or_else (sd_role d) "user" in
  try_catch
    (existingUser <- select_from_users_where (eq_email (sd_email d)) 1 ;;
     if (0 <? List.length existingUser)%nat
     then throw "User with this email already exists"
     else
       let password_hash := hashPassword salt (sd_password d) in
       returned <- insert_into_users now
                     (mkNewUser (sd_name d) (sd_email d) password_hash role) ;;
       match returned with
       | newUser :: _ => ret (auth_user newUser)
       | [] => throw "Cannot read properties of undefined (reading 'email')"
       end)
    (fun e => throw e).

(** *** services/users.services.js (under the names the controller
    imports them by) *)

Definition getAllUsersService : Db (list UserView) :=
  try_catch
    (allUsers <- select_from_users ;; ret (map user_view allUsers))
    (fun _ => throw "Failed to retrieve users").

Definition getUserByIdService (i : Z) : Db UserView :=
  try_catch
    (user <- select_from_users_where_id i 1 ;;
     match user with
     | [] => throw "User not found"
     | u :: _ => ret (user_view u)
     end)
    (fun e => throw e).

(** [if (updates.password) updates.password = await hashPassword(updates.password)] *)
Definition hash_updates (salt : Salt) (updates : Patch) : Patch :=
  match p_password updates with
  | Some pw =>
      if truthy pw
      then mkPatch (p_name updates) (p_email updates) (Some (hashPassword salt pw))
                   (p_role updates)
      else updates
  | None => updates
  end.

(** The result is [None] when the destructured array is empty
    ([undefined] in the source). *)
Definition updateUserService (now : Z) (salt : Salt) (i : Z) (updates : Patch)
  : Db (option UserView) :=
  try_catch
    (existingUser <- select_from_users_where_id i 1 ;;
     match existingUser with
     | [] => throw "User not found"
     | _ :: _ =>
         let updateData := hash_updates salt updates in
         returned <- update_users_set_where_id updateData now i ;;
         ret (option_map user_view (hd_error returned))
     end)
    (fun e => throw e).

Definition deleteUserService (i : Z) : Db (option DeletedUser) :=
  try_catch
    (existingUser <- select_from_users_where_id i 1 ;;
     match existingUser with
     | [] => throw "User not found"
     | _ :: _ =>
         returned <- delete_from_users_where_id i ;;
         ret (option_map deleted_user (hd_error returned))
     end)
    (fun e => throw e).

(** *** controllers *)

Definition Handler : Type := Request -> DB -> Outcome * DB.

(** [try { ... return res.status(..).json(..) } catch (e) { ... }]: the
    body of a controller computes the response it sends; the [catch]
    clause turns a thrown message into a response or into [next(e)]. *)
Definition respond (m : Db Response) (on_error : Error -> Outcome)
  : DB -> Outcome * DB :=
  fun db =>
    match m db with
    | (Ok res, db') => (Sent res, db')
    | (Throw e, db') => (on_error e, db')
    end.

(** Reading [req.user.role] when no middleware has set [req.user]. *)
Definition undefined_user : Error := TypeError "role".

(** **** controllers/auth.controller.js *)

Definition signup (now : Z) (salt : Salt) : Handler :=
  fun req =>
    respond
      (match signupSchema (req_body req) with
       | inl error =>
           ret (json 400 (JObj [("error", JStr "Validation failedhgfdsfgh");
                                ("details", formatValidationError error);
                                ("data", req_body req)]))
       | inr data =>
           user <- createUser now salt
                     (mkSignupData (sd_name data) (sd_email data)
                                   (sd_password data) (sd_role data)) ;;
           let token := jwt_sign (mkClaims (au_id user) (au_email user) (au_role user)) in
           ret (mkResponse 201
                  (JObj [("success", JBool true);
                         ("message", JStr "User registered successfully");
                         ("user", JObj [("id", JNum (au_id user));
                                        ("name", JStr (au_name user));
                                        ("email", JStr (au_email user));
                                        ("role", JStr (au_role user))])])
                  [("token", token)])
       end)
      (fun err =>
         if has_message err "User with this email already exists"
         then Sent (json 409 (JObj [("error", JStr "User with this email already exists")]))
         else NextErr err).

(** The TypeError of [b.k] for a [b] that is [undefined] or [null]. *)
(** Between [safeParse] and the test of its result the controller logs
    [req.body.email]; that property access throws when [req.body] is
    [undefined] or [null].  [safeParse] of an object schema accepts
    objects only, so the access throws only where the parse has failed. *)
Definition signin : Handler :=
  fun req =>
    respond
      (match signInSchema (req_body req) with
       | inl error =>
           if nullish (req_body req) then throw (TypeError "email")
           else
             ret (json 400 (JObj [("error", JStr "Validation failed");
                                  ("details", formatValidationError error);
                                  ("data", req_body req)]))
       | inr data =>
           user <- authenticateUser (mkSignInData (si_email data) (si_password data)) ;;
           let token := jwt_sign (mkClaims (au_id user) (au_email user) (au_role user)) in
           ret (mkResponse 200
                  (JObj [("success", JBool true);
                         ("message", JStr "User signed in successfully");
                         ("user", JObj [("id", JNum (au_id user));
                                        ("name", JStr (au_name user));
                                        ("email", JStr (au_email user));
                                        ("role", JStr (au_role user))])])
                  [("token", token)])
       end)
      (fun err =>
         if has_message err "User not found"
         then Sent (json 404 (JObj [("error", JStr "User not found")]))
         else if has_message err "Invalid password"
         then Sent (json 401 (JObj [("error", JStr "Invalid credentials")]))
         else NextErr err).

(** **** controllers/users.controller.js *)

Definition validation_failed (error : ZodError) : Response :=
  json 400 (JObj [("error", JStr "Validation failed");
                  ("details", formatValidationError error)]).

Definition user_not_found (err : Error) : Outcome :=
  if has_message err "User not found"
  then Sent (json 404 (JObj [("error", JStr "User not found");
                             ("message", JStr "User with the specified ID does not exist")]))
  else NextErr err.

Definition getAllUsers : Handler :=
  fun req =>
    respond
      (users <- getAllUsersService ;;
       ret (json 200 (JObj [("success", JBool true);
                            ("message", JStr "All users retrieved successfully");
                            ("users", JArr (map UserView_json users));
                            ("count", JNum (Z.of_nat (List.length users)))])))
      (fun err => NextErr err).

Definition getUserById : Handler :=
  fun req =>
    respond
      (match userIdSchema (req_params_id req) with
       | inl error => ret (validation_failed error)
       | inr id =>
           user <- getUserByIdService id ;;
           ret (json 200 (JObj [("success", JBool true);
                                ("message", JStr "User retrieved successfully");
                                ("user", UserView_json user)]))
       end)
      user_not_found.

Definition updateUser (now : Z) (salt : Salt) : Handler :=
  fun req =>
    respond
      (match userIdSchema (req_params_id req) with
       | inl error => ret (validation_failed error)
       | inr id =>
           match updateUserSchema (req_body req) with
           | inl error => ret (validation_failed error)
           | inr updates =>
               match req_user req with
               | None => throw undefined_user
               | Some user =>
                   if negb (String.eqb (claim_role user) "admin")
                      && negb (Z.eqb (claim_id user) id)
                   then ret (json 403
                               (JObj [("error", JStr "Access denied");
                                      ("message", JStr "You can only update your own profile")]))
                   else if truthy_opt (p_role updates)
                           && negb (String.eqb (claim_role user) "admin")
                   then ret (json 403
                               (JObj [("error", JStr "Access denied");
                                      ("message", JStr "Only admin users can change user roles")]))
                   else
                     updatedUser <- updateUserService now salt id updates ;;
                     ret (json 200
                            (with_user [("success", JBool true);
                                        ("message", JStr "User updated successfully")]
                                       (option_map UserView_json updatedUser)))
               end
           end
       end)
      user_not_found.

Definition deleteUser : Handler :=
  fun req =>
    respond
      (match userIdSchema (req_params_id req) with
       | inl error => ret (validation_failed error)
       | inr id =>
           match req_user req with
           | None => throw undefined_user
           | Some user =>
               if negb (String.eqb (claim_role user) "admin")
                  && negb (Z.eqb (claim_id user) id)
               then ret (json 403
                           (JObj [("error", JStr "Access denied");
                                  ("message", JStr "You can only delete your own account")]))
               else if String.eqb (claim_role user) "admin" && Z.eqb (claim_id user) id
               then ret (json 403
                           (JObj [("error", JStr "Action not allowed");
                                  ("message", JStr "Admin users cannot delete their own account")]))
               else
                 deletedUser <- deleteUserService id ;;
                 ret (json 200
                        (with_user [("success", JBool true);
                                    ("message", JStr "User deleted successfully")]
                                   (option_map DeletedUser_json deletedUser)))
           end
       end)
      user_not_found.

(** *** middleware/auth.middleware.js

    A middleware either answers the request itself ([inl]) or calls
    [next()] with the request it may have extended ([inr]). *)

(** [req.cookies?.token] *)
Definition cookie_token (req : Request) : option string :=
  match req_cookies req with
  | Some cookies => assoc "token" cookies
  | None => None
  end.

Definition no_token : Response :=
  json 401 (JObj [("error", JStr "Access denied");
                  ("message", JStr "No authentication token provided")]).

Definition invalid_token : Response :=
  json 401 (JObj [("error", JStr "Invalid token");
                  ("message", JStr "Authentication token is invalid or expired")]).

Definition authenticateToken (req : Request) : Response + Request :=
  match cookie_token req with
  | None => inl no_token
  | Some token =>
      if negb (truthy token) then inl no_token
      else
        match jwt_verify token with
        | Some decoded =>
            inr (mkRequest (req_cookies req) (req_params_id req) (req_body req)
                           (Some decoded))
        | None => inl invalid_token
        end
  end.

(** [Array.isArray(roles) ? roles : [roles]] *)
Definition userRoles (roles : string + list string) : list string :=
  match roles with
  | inl r => [r]
  | inr rs => rs
  end.

Definition requireRole (roles : string + list string) (req : Request)
  : Response + Request :=
  match req_user req with
  | None =>
      inl (json 401 (JObj [("error", JStr "Authentication required");
                           ("message", JStr "User must be authenticated")]))
  | Some user =>
      if negb (existsb (String.eqb (claim_role user)) (userRoles roles))
      then inl (json 403 (JObj [("error", JStr "Insufficient permissions");
                                ("message", JStr "User does not have required permissions")]))
      else inr req
  end.

(** *** routes/users.routes.js *)

Inductive Method : Type := GET | POST | PUT | DELETE.

Inductive Middleware : Type :=
| AuthenticateToken
| RequireRole (roles : string + list string).

Inductive Controller : Type :=
| GetAllUsers
| GetUserById
| UpdateUser
| DeleteUser.

Record Route : Type := mkRoute {
  method : Method;
  path : string;
  middleware : list Middleware;
  controller : Controller
}.

Definition router : list Route :=
  [ mkRoute GET "/" [AuthenticateToken] GetAllUsers;
    mkRoute GET "/:id" [AuthenticateToken] GetUserById;
    mkRoute PUT "/:id" [AuthenticateToken] UpdateUser;
    mkRoute DELETE "/:id" [AuthenticateToken] DeleteUser ].

Definition run_middleware (m : Middleware) : Request -> Response + Request :=
  match m with
  | AuthenticateToken => authenticateToken
  | RequireRole roles => requireRole roles
  end.

Definition run_controller (now : Z) (salt : Salt) (c : Controller) : Handler :=
  match c with
  | GetAllUsers => getAllUsers
  | GetUserById => getUserById
  | UpdateUser => updateUser now salt
  | DeleteUser => deleteUser
  end.

(** The chain of one route: each middleware in turn, then the handler,
    unless a middleware has answered. *)
Fixpoint through (ms : list Middleware) (handler : Handler) : Handler :=
  fun req db =>
    match ms with
    | [] => handler req db
    | m :: ms' =>
        match run_middleware m req with
        | inl res => (Sent res, db)
        | inr req' => through ms' handler req' db
        end
    end.

Definition serve (now : Z) (salt : Salt) (r : Route) : Handler :=
  through (middleware r) (run_controller now salt (controller r)).

Definition is_requireRole (m : Middleware) : bool :=
  match m with RequireRole _ => true | AuthenticateToken => false end.
End Model.

(** ** A reference instance of the third-party interfaces

    Small executable stand-ins, used to run the model on concrete
    requests: a hasher whose salt is one character, a token codec that
    can be decoded again, and schemas that follow the data model of the
    specification. *)

Module Reference.

(** The hash of [password] under salt [c] is [c] followed by the
    password; [compare] strips the salt. *)
Definition bcrypt : Bcrypt := {|
  Salt := ascii;
  bcrypt_hashSync := fun password _ salt => String salt password;
  bcrypt_compare := fun password hash =>
    match hash with
    | String _ rest => String.eqb rest password
    | EmptyString => false
    end
|}.

(** Tokens: sign, id in unary, length of the email in unary, email, role. *)
Fixpoint enc_nat (n : nat) (rest : string) : string :=
  match n with
  | O => String "0" rest
  | S n' => String "1" (enc_nat n' rest)
  end.

Fixpoint dec_nat (s : string) : option (nat * string) :=
  match s with
  | EmptyString => None
  | String c s' =>
      if Ascii.eqb c "0" then Some (O, s')
      else if Ascii.eqb c "1"
      then match dec_nat s' with
           | Some (n, rest) => Some (S n, rest)
           | None => None
           end
      else None
  end.

Fixpoint split_at (n : nat) (s : string) : option (string * string) :=
  match n with
  | O => Some (EmptyString, s)
  | S n' =>
      match s with
      | EmptyString => None
      | String c s' =>
          match split_at n' s' with
          | Some (a, b) => Some (String c a, b)
          | None => None
          end
      end
  end.

Definition sign (c : Claims) : string :=
  String (if claim_id c <? 0 then "-"%char else "+"%char)
    (enc_nat (Z.abs_nat (claim_id c))
       (enc_nat (String.length (claim_email c))
          (claim_email c ++ claim_role c))).

Definition verify (t : string) : option Claims :=
  match t with
  | EmptyString => None
  | String sg t1 =>
      match dec_nat t1 with
      | None => None
      | Some (n, t2) =>
          match dec_nat t2 with
          | None => None
          | Some (len, t3) =>
              match split_at len t3 with
              | None => None
              | Some (e, r) =>
                  if Ascii.eqb sg "-" then Some (mkClaims (- Z.of_nat n) e r)
                  else if Ascii.eqb sg "+" then Some (mkClaims (Z.of_nat n) e r)
                  else None
              end
          end
      end
  end.

Definition jwttoken : Jwt := {| jwt_sign := sign; jwt_verify := verify |}.

(** Modelled from the spec: the Zod schemas ([#validations/auth.validation.js]
    and [#validations/users.validation.js]) are not among the sources.
    Name, email and password are required non-empty strings; [role] is
    optional and restricted to the two known values; ids are positive
    decimal numbers; every field of an update is optional. *)
Definition str_field (k : string) (j : Json) : option string :=
  match get k j with
  | Some (JStr s) => if truthy s then Some s else None
  | _ => None
  end.

Definition known_role (r : string) : bool :=
  String.eqb r "user" || String.eqb r "admin".

(** [Some None]: absent; [Some (Some r)]: a known role; [None]: rejected. *)
Definition role_field (j : Json) : option (option string) :=
  match get "role" j with
  | None => Some None
  | Some (JStr r) => if known_role r then Some (Some r) else None
  | Some _ => None
  end.

Definition opt_str_field (k : string) (j : Json) : option (option string) :=
  match get k j with
  | None => Some None
  | Some (JStr s) => if truthy s then Some (Some s) else None
  | Some _ => None
  end.

Definition signup_schema (j : Json) : string + SignupData :=
  match str_field "name" j, str_field "email" j, str_field "password" j, role_field j with
  | Some n, Some e, Some p, Some r => inr (mkSignupData n e p r)
  | _, _, _, _ => inl "Invalid input"
  end.

Definition signin_schema (j : Json) : string + SignInData :=
  match str_field "email" j, str_field "password" j with
  | Some e, Some p => inr (mkSignInData e p)
  | _, _ => inl "Invalid input"
  end.

Fixpoint digits (s : string) (acc : Z) : option Z :=
  match s with
  | EmptyString => Some acc
  | String c s' =>
      let n := Z.of_nat (nat_of_ascii c) in
      if (48 <=? n) && (n <=? 57) then digits s' (10 * acc + (n - 48)) else None
  end.

Definition user_id_schema (s : string) : string + Z :=
  match s with
  | EmptyString => inl "ID must be a valid number"
  | _ =>
      match digits s 0 with
      | Some i => if 0 <? i then inr i else inl "ID must be a positive number"
      | None => inl "ID must be a valid number"
      end
  end.

Definition update_schema (j : Json) : string + Patch :=
  match opt_str_field "name" j, opt_str_field "email" j,
        opt_str_field "password" j, role_field j with
  | Some n, Some e, Some p, Some r => inr (mkPatch n e p r)
  | _, _, _, _ => inl "Invalid input"
  end.

Definition zod : Validation := {|
  ZodError := string;
  formatValidationError := JStr;
  signupSchema := signup_schema;
  signInSchema := signin_schema;
  userIdSchema := user_id_schema;
  updateUserSchema := update_schema
|}.

(** *** Sample data *)

Definition admin_row : users.row :=
  users.mk 1 "Ada" "ada@example.com" "#admin-pass" "admin" 100 100.

Definition john_row : users.row :=
  users.mk 2 "John" "john@example.com" "#password123" "user" 200 200.

Definition db0 : DB := mkDB [admin_row; john_row] 3.

Definition admin_claims : Claims := mkClaims 1 "ada@example.com" "admin".
Definition john_claims : Claims := mkClaims 2 "john@example.com" "user".

Definition credentials (e p : string) : Json :=
  JObj [("email", JStr e); ("password", JStr p)].

Definition registration (n e p : string) : Json :=
  JObj [("name", JStr n); ("email", JStr e); ("password", JStr p)].

Definition anonymous (id : string) (b : Json) : Request :=
  mkRequest None id b None.

Definition with_cookie (t : string) (id : string) (b : Json) : Request :=
  mkRequest (Some [("token", t)]) id b None.

Definition as_user (c : Claims) (id : string) (b : Json) : Request :=
  mkRequest None id b (Some c).

Definition mary : SignupData :=
  mkSignupData "Mary" "mary@example.com" "secret12" None.

Definition johnny : SignupData :=
  mkSignupData "Johnny" "john@example.com" "hunter22" None.

Definition mary_row : users.row :=
  users.mk 3 "Mary" "mary@example.com" "$secret12" "user" 300 300.

Definition db1 : DB := mkDB [admin_row; john_row; mary_row] 4.

Definition sign_up (d : SignupData) : Request :=
  anonymous "" (registration (sd_name d) (sd_email d) (sd_password d)).

Definition sign_in (e p : string) : Request :=
  anonymous "" (credentials e p).

Definition list_route : Route := mkRoute GET "/" [AuthenticateToken] GetAllUsers.
Definition get_route : Route := mkRoute GET "/:id" [AuthenticateToken] GetUserById.
End Reference.

(** ** Notions used in the statements *)

(** Some row carries the address [e]; a query by the id [i] finds a row. *)
Definition registered (e : string) (db : DB) : bool :=
  existsb (eq_email e) (users_rows db).

Definition has_id (i : Z) (db : DB) : bool :=
  int4 i && existsb (eq_id i) (users_rows db).

(** The first row with a given address or id: what a [limit(1)] query
    returns.  A by-id query finds nothing for a number outside the range
    of the column: it is rejected. *)
Definition by_email (e : string) (db : DB) : option users.row :=
  find (eq_email e) (users_rows db).

Definition by_id (i : Z) (db : DB) : option users.row :=
  if int4 i then find (eq_id i) (users_rows db) else None.


(** The stored password is an output of the hasher. *)
Definition is_hash {bcrypt : Bcrypt} (h : string) : Prop :=
  exists (password : string) (salt : Salt), h = bcrypt_hashSync password 12 salt.

(** The row that [createUser] stores for the validated data [d]. *)
Definition new_row {bcrypt : Bcrypt} (now : Z) (salt : Salt) (d : SignupData) (db : DB)
  : users.row :=
  users.mk (users_id_seq db) (sd_name d) (sd_email d)
           (hashPassword salt (sd_password d)) (or_else (sd_role d) "user") now now.

(** Every stored password is an output of the hasher. *)
Definition all_hashed {bcrypt : Bcrypt} (db : DB) : Prop :=
  Forall (fun r => is_hash (users.password r)) (users_rows db).

(** Modelled from the spec: [updateUserSchema]
    ([#validations/users.validation.js]) is not among the sources.  Of the
    patches it accepts the proofs use only this much: a password or a
    role, when present, is a non-empty string (the specification restricts
    the role to [user] and [admin]). *)
Definition well_formed (updates : Patch) : bool :=
  match p_password updates with Some pw => truthy pw | None => true end
  && match p_role updates with Some r => truthy r | None => true end.

(** The 403 and 404 bodies of the users controller. *)
Definition forbidden (message : string) : Response :=
  json 403 (JObj [("error", JStr "Access denied"); ("message", JStr message)]).

Definition not_found : Response :=
  json 404 (JObj [("error", JStr "User not found");
                  ("message", JStr "User with the specified ID does not exist")]).


(** The caller passes both checks of the delete controller: an admin
    deleting someone else, or a non-admin deleting their own account. *)
Definition may_delete (caller : Claims) (i : Z) : Prop :=
  (claim_role caller = "admin" /\ claim_id caller <> i)
  \/ (claim_role caller <> "admin" /\ claim_id caller = i).

(** [req.user = claims] *)
Definition set_user (req : Request) (claims : Claims) : Request :=
  mkRequest (req_cookies req) (req_params_id req) (req_body req) (Some claims).

(** The 200 bodies of the two read controllers. *)
Definition all_users_body (db : DB) : Json :=
  JObj [("success", JBool true);
        ("message", JStr "All users retrieved successfully");
        ("users", JArr (map (fun r => UserView_json (user_view r)) (users_rows db)));
        ("count", JNum (Z.of_nat (List.length (users_rows db))))].

Definition one_user_body (u : users.row) : Json :=
  JObj [("success", JBool true);
        ("message", JStr "User retrieved successfully");
        ("user", UserView_json (user_view u))].

(** The rows of [db] other than those with id [i]. *)
Definition others (i : Z) (db : DB) : list users.row :=
  filter (fun r => negb (eq_id i r)) (users_rows db).

(** The primary key and the UNIQUE constraint hold, and the sequence is
    ahead of every id in use. *)
Definition consistent (db : DB) : Prop :=
  NoDup (map users.id (users_rows db))
  /\ NoDup (map users.email (users_rows db))
  /\ forall r, In r (users_rows db) -> users.id r < users_id_seq db.

(** ** Further notions: the answers of the controllers *)

(** The payload that both controllers sign for a stored user. *)
Definition claims_of (u : users.row) : Claims :=
  mkClaims (users.id u) (users.email u) (users.role u).

(** The user object of the sign-up and sign-in bodies. *)
Definition session_user (u : users.row) : Json :=
  JObj [("id", JNum (users.id u)); ("name", JStr (users.name u));
        ("email", JStr (users.email u)); ("role", JStr (users.role u))].

(** The 201 of [signup] and the 200 of [signin] for the stored row [u]. *)
Definition registered_response {jwttoken : Jwt} (u : users.row) : Response :=
  mkResponse 201
    (JObj [("success", JBool true);
           ("message", JStr "User registered successfully");
           ("user", session_user u)])
    [("token", jwt_sign (claims_of u))].

Definition signed_in_response {jwttoken : Jwt} (u : users.row) : Response :=
  mkResponse 200
    (JObj [("success", JBool true);
           ("message", JStr "User signed in successfully");
           ("user", session_user u)])
    [("token", jwt_sign (claims_of u))].

(** The controller answered 200 or 201. *)
Definition succeeded (o : Outcome) : bool :=
  match o with
  | Sent res => Z.eqb (status res) 200 || Z.eqb (status res) 201
  | NextErr _ => false
  end.

(** The table after [update ... where id = i] went through. *)
Definition updated {bcrypt : Bcrypt} (now : Z) (salt : Salt) (i : Z) (updates : Patch)
  (db : DB) : DB :=
  mkDB (map (fun r => if eq_id i r
                      then set_row (hash_updates salt updates) now r
                      else r) (users_rows db))
       (users_id_seq db).

(** The table after [delete ... where id = i]. *)
Definition deleted (i : Z) (db : DB) : DB :=
  mkDB (others i db) (users_id_seq db).

(** The table after [createUser] stored the data [d]. *)
Definition inserted {bcrypt : Bcrypt} (now : Z) (salt : Salt) (d : SignupData) (db : DB)
  : DB :=
  mkDB (users_rows db ++ [new_row now salt d db]) (users_id_seq db + 1).


(** The 403 of [requireRole]. *)
Definition insufficient : Response :=
  json 403 (JObj [("error", JStr "Insufficient permissions");
                  ("message", JStr "User does not have required permissions")]).

(** ** More sample requests for the reference instance *)

Module Scenario.




(** John, an ordinary user, changes his own password, or his email and
    password, or asks for Ada's email. *)
Definition new_password : Patch := mkPatch None None (Some "newpass1") None.

Definition new_credentials : Patch :=
  mkPatch None (Some "johnny@example.com") (Some "newpass1") None.

Definition john_updates (b : Json) : Request :=
  Reference.as_user Reference.john_claims "2" b.

Definition new_password_body : Json := JObj [("password", JStr "newpass1")].


(** Ada, an admin, deletes John. *)
Definition ada_deletes_john : Request :=
  Reference.as_user Reference.admin_claims "2" JNull.

Definition without_john : DB := mkDB [Reference.admin_row] 3.

End Scenario.

(** * Properties *)

Section Properties.
Context {bcrypt : Bcrypt} {jwttoken : Jwt} {zod : Validation}.

(** ** Queries *)

Lemma limit_1 (p : users.row -> bool) (rows : list users.row) :
  firstn 1 (filter p rows) = match find p rows with Some r => [r] | None => [] end.
Proof.
  induction rows as [|r rows IH]; simpl; [reflexivity|].
  destruct (p r); simpl; [reflexivity | exact IH].
Qed.

Lemma find_existsb (p : users.row -> bool) (rows : list users.row) :
  existsb p rows = match find p rows with Some _ => true | None => false end.
Proof.
  induction rows as [|r rows IH]; simpl; [reflexivity|].
  destruct (p r); simpl; [reflexivity | exact IH].
Qed.

Lemma registered_by_email (e : string) (db : DB) :
  registered e db = match by_email e db with Some _ => true | None => false end.
Proof. apply find_existsb. Qed.

Lemma has_id_by_id (i : Z) (db : DB) :
  has_id i db = match by_id i db with Some _ => true | None => false end.
Proof.
  unfold has_id, by_id. destruct (int4 i); simpl; [apply find_existsb | reflexivity].
Qed.

Lemma by_id_int4 (i : Z) (u : users.row) (db : DB) :
  by_id i db = Some u -> int4 i = true /\ find (eq_id i) (users_rows db) = Some u.
Proof.
  unfold by_id. destruct (int4 i); [intros H; split; [reflexivity | exact H] | discriminate].
Qed.

Lemma by_id_in_range (i : Z) (db : DB) :
  int4 i = true -> by_id i db = find (eq_id i) (users_rows db).
Proof. intros H. unfold by_id. rewrite H. reflexivity. Qed.







(** ** The authentication service, statement by statement *)

Lemma createUser_eq (now : Z) (salt : Salt) (d : SignupData) (db : DB) :
  createUser now salt d db =
  if registered (sd_email d) db
  then (Throw "User with this email already exists", db)
  else (Ok (auth_user (new_row now salt d db)),
        mkDB (users_rows db ++ [new_row now salt d db]) (users_id_seq db + 1)).
Proof.
  unfold createUser, try_catch, bind, select_from_users_where, insert_into_users,
    throw, ret, registered, new_row.
  rewrite limit_1, find_existsb.
  destruct (find (eq_email (sd_email d)) (users_rows db)) eqn:E; simpl;
    [reflexivity|].
  rewrite find_existsb, E. reflexivity.
Qed.

Lemma authenticateUser_eq (c : SignInData) (db : DB) :
  authenticateUser c db =
  match by_email (si_email c) db with
  | None => (Throw "User not found", db)
  | Some user =>
      if bcrypt_compare (si_password c) (users.password user)
      then (Ok (auth_user user), db)
      else (Throw "Invalid password", db)
  end.
Proof.
  unfold authenticateUser, try_catch, bind, select_from_users_where, throw, ret,
    by_email, comparePassword.
  rewrite limit_1.
  destruct (find (eq_email (si_email c)) (users_rows db)) as [user|]; [|reflexivity].
  destruct (bcrypt_compare (si_password c) (users.password user)); reflexivity.
Qed.

Lemma signup_valid (now : Z) (salt : Salt) (req : Request) (d : SignupData) (db : DB) :
  signupSchema (req_body req) = inr d ->
  signup now salt req db =
  match createUser now salt d db with
  | (Ok user, db') =>
      (Sent (mkResponse 201
               (JObj [("success", JBool true);
                      ("message", JStr "User registered successfully");
                      ("user", JObj [("id", JNum (au_id user));
                                     ("name", JStr (au_name user));
                                     ("email", JStr (au_email user));
                                     ("role", JStr (au_role user))])])
               [("token", jwt_sign (mkClaims (au_id user) (au_email user) (au_role user)))]),
       db')
  | (Throw message, db') =>
      (if has_message message "User with this email already exists"
       then Sent (json 409 (JObj [("error", JStr "User with this email already exists")]))
       else NextErr message, db')
  end.
Proof.
  intros Hv. unfold signup, respond, bind, ret. rewrite Hv.
  destruct d as [n e p r]; simpl.
  destruct (createUser now salt (mkSignupData n e p r) db) as [[user|message] db'];
    reflexivity.
Qed.

Lemma signin_valid (req : Request) (c : SignInData) (db : DB) :
  signInSchema (req_body req) = inr c ->
  signin req db =
  match authenticateUser c db with
  | (Ok user, db') =>
      (Sent (mkResponse 200
               (JObj [("success", JBool true);
                      ("message", JStr "User signed in successfully");
                      ("user", JObj [("id", JNum (au_id user));
                                     ("name", JStr (au_name user));
                                     ("email", JStr (au_email user));
                                     ("role", JStr (au_role user))])])
               [("token", jwt_sign (mkClaims (au_id user) (au_email user) (au_role user)))]),
       db')
  | (Throw message, db') =>
      (if has_message message "User not found"
       then Sent (json 404 (JObj [("error", JStr "User not found")]))
       else if has_message message "Invalid password"
       then Sent (json 401 (JObj [("error", JStr "Invalid credentials")]))
       else NextErr message, db')
  end.
Proof.
  intros Hv. unfold signin, respond, bind, ret. rewrite Hv.
  destruct c as [e p]; simpl.
  destruct (authenticateUser (mkSignInData e p) db) as [[user|message] db'];
    reflexivity.
Qed.

(** ** Registration and sign-in *)


(** C2.  Sign-in has exactly three outcomes, decided by the first row
    carrying the email: no such row, [authenticateUser] throws "User not
    found" and the controller answers 404; a row whose stored hash does
    not match the password, "Invalid password" and 401; otherwise the
    projection of that row and 200.  The three cases exclude each other
    and cover every validated request. *)
Theorem authenticate_three_outcomes (c : SignInData) (db : DB) :
  (by_email (si_email c) db = None ->
     authenticateUser c db = (Throw "User not found", db))
  /\ (forall user, by_email (si_email c) db = Some user ->
        bcrypt_compare (si_password c) (users.password user) = false ->
        authenticateUser c db = (Throw "Invalid password", db))
  /\ (forall user, by_email (si_email c) db = Some user ->
        bcrypt_compare (si_password c) (users.password user) = true ->
        authenticateUser c db = (Ok (auth_user user), db))
  /\ (forall req, signInSchema (req_body req) = inr c ->
        exists res,
          signin req db = (Sent res, db)
          /\ ((status res = 404 /\ by_email (si_email c) db = None)
              \/ (status res = 401
                  /\ exists user, by_email (si_email c) db = Some user
                       /\ bcrypt_compare (si_password c) (users.password user) = false)
              \/ (status res = 200
                  /\ exists user, by_email (si_email c) db = Some user
                       /\ bcrypt_compare (si_password c) (users.password user) = true
                       /\ get "user" (body res) =
                          Some (JObj [("id", JNum (users.id user));
                                      ("name", JStr (users.name user));
                                      ("email", JStr (users.email user));
                                      ("role", JStr (users.role user))])
                       /\ mentions "password" (body res) = false))).
Proof.
  repeat split.
  - intros H. rewrite authenticateUser_eq, H. reflexivity.
  - intros user H Hc. rewrite authenticateUser_eq, H, Hc. reflexivity.
  - intros user H Hc. rewrite authenticateUser_eq, H, Hc. reflexivity.
  - intros req Hv. rewrite (signin_valid req c db Hv), authenticateUser_eq.
    destruct (by_email (si_email c) db) as [user|] eqn:E.
    + destruct (bcrypt_compare (si_password c) (users.password user)) eqn:Hc.
      * eexists. split; [reflexivity|]. right. right. split; [reflexivity|].
        exists user. repeat split; reflexivity || assumption.
      * eexists. split; [reflexivity|]. right. left. split; [reflexivity|].
        exists user. split; [reflexivity | assumption].
    + eexists. split; [reflexivity|]. left. split; reflexivity.
Qed.



(** ** The users service *)

Lemma hd_filter (p : users.row -> bool) (rows : list users.row) :
  hd_error (filter p rows) = find p rows.
Proof.
  induction rows as [|r rows IH]; simpl; [reflexivity|].
  destruct (p r); simpl; [reflexivity | exact IH].
Qed.

Lemma set_row_id (updates : Patch) (now : Z) (r : users.row) :
  users.id (set_row updates now r) = users.id r.
Proof. reflexivity. Qed.

Lemma find_updated (updates : Patch) (now i : Z) (rows : list users.row) :
  find (eq_id i) (map (fun r => if eq_id i r then set_row updates now r else r) rows)
  = option_map (set_row updates now) (find (eq_id i) rows).
Proof.
  induction rows as [|r rows IH]; simpl; [reflexivity|].
  destruct (eq_id i r) eqn:E.
  - unfold eq_id in *. rewrite set_row_id, E. reflexivity.
  - rewrite E. exact IH.
Qed.

Lemma find_deleted (i : Z) (rows : list users.row) :
  find (eq_id i) (filter (fun r => negb (eq_id i r)) rows) = None.
Proof.
  induction rows as [|r rows IH]; simpl; [reflexivity|].
  destruct (eq_id i r) eqn:E; simpl; [exact IH|].
  rewrite E. exact IH.
Qed.

Lemma by_id_set (updates : Patch) (now i : Z) (rows : list users.row) (seq seq' : Z) :
  by_id i (mkDB (map (fun r => if eq_id i r then set_row updates now r else r) rows) seq)
  = option_map (set_row updates now) (by_id i (mkDB rows seq')).
Proof.
  unfold by_id. simpl. destruct (int4 i); [apply find_updated | reflexivity].
Qed.

Lemma by_id_removed (i : Z) (rows : list users.row) (seq : Z) :
  by_id i (mkDB (filter (fun r => negb (eq_id i r)) rows) seq) = None.
Proof.
  unfold by_id. simpl. destruct (int4 i); [apply find_deleted | reflexivity].
Qed.

Lemma hash_updates_email (salt : Salt) (updates : Patch) :
  p_email (hash_updates salt updates) = p_email updates.
Proof.
  unfold hash_updates. destruct (p_password updates) as [pw|]; [|reflexivity].
  destruct (truthy pw); reflexivity.
Qed.

Lemma hash_updates_role (salt : Salt) (updates : Patch) :
  p_role (hash_updates salt updates) = p_role updates.
Proof.
  unfold hash_updates. destruct (p_password updates) as [pw|]; [|reflexivity].
  destruct (truthy pw); reflexivity.
Qed.

Lemma hash_updates_password (salt : Salt) (updates : Patch) (pw : string) :
  p_password updates = Some pw -> truthy pw = true ->
  p_password (hash_updates salt updates) = Some (bcrypt_hashSync pw 12 salt).
Proof.
  intros H T. unfold hash_updates. rewrite H, T. reflexivity.
Qed.

(** The database after a successful update of the rows with id [i]. *)
Lemma updateUserService_eq (now : Z) (salt : Salt) (i : Z) (updates : Patch) (db : DB) :
  updateUserService now salt i updates db =
  match by_id i db with
  | None => if int4 i then (Throw "User not found", db) else (Throw out_of_range, db)
  | Some u =>
      if email_conflict updates i (users_rows db)
      then (Throw unique_violation, db)
      else (Ok (Some (user_view (set_row (hash_updates salt updates) now u))),
            mkDB (map (fun r => if eq_id i r
                                then set_row (hash_updates salt updates) now r
                                else r) (users_rows db))
                 (users_id_seq db))
  end.
Proof.
  unfold updateUserService, try_catch, bind, select_from_users_where_id,
    select_from_users_where, update_users_set_where_id, throw, ret, by_id.
  destruct (int4 i) eqn:R; [|reflexivity].
  rewrite limit_1.
  destruct (find (eq_id i) (users_rows db)) as [u|] eqn:E; [|reflexivity].
  cbv zeta. simpl negb. cbv iota. rewrite find_existsb, E.
  unfold email_conflict at 1. rewrite hash_updates_email.
  fold (email_conflict updates i (users_rows db)).
  destruct (email_conflict updates i (users_rows db)); simpl; [reflexivity|].
  rewrite hd_filter, find_updated, E. reflexivity.
Qed.

Lemma deleteUserService_eq (i : Z) (db : DB) :
  deleteUserService i db =
  match by_id i db with
  | None => if int4 i then (Throw "User not found", db) else (Throw out_of_range, db)
  | Some u =>
      (Ok (Some (deleted_user u)),
       mkDB (filter (fun r => negb (eq_id i r)) (users_rows db)) (users_id_seq db))
  end.
Proof.
  unfold deleteUserService, try_catch, bind, select_from_users_where_id,
    select_from_users_where, delete_from_users_where_id, throw, ret, by_id.
  destruct (int4 i) eqn:R; [|reflexivity].
  rewrite limit_1.
  destruct (find (eq_id i) (users_rows db)) as [u|] eqn:E; [|reflexivity].
  cbv zeta. simpl negb. cbv iota. rewrite hd_filter, E. reflexivity.
Qed.

Lemma getUserByIdService_eq (i : Z) (db : DB) :
  getUserByIdService i db =
  match by_id i db with
  | None => if int4 i then (Throw "User not found", db) else (Throw out_of_range, db)
  | Some u => (Ok (user_view u), db)
  end.
Proof.
  unfold getUserByIdService, try_catch, bind, select_from_users_where_id,
    select_from_users_where, throw, ret, by_id.
  destruct (int4 i) eqn:R; [|reflexivity].
  rewrite limit_1.
  destruct (find (eq_id i) (users_rows db)); reflexivity.
Qed.

(** ** The users controller *)


Lemma updateUser_valid
  (now : Z) (salt : Salt) (req : Request) (caller : Claims) (i : Z)
  (updates : Patch) (db : DB) :
  userIdSchema (req_params_id req) = inr i ->
  updateUserSchema (req_body req) = inr updates ->
  req_user req = Some caller ->
  updateUser now salt req db =
  if negb (String.eqb (claim_role caller) "admin") && negb (Z.eqb (claim_id caller) i)
  then (Sent (forbidden "You can only update your own profile"), db)
  else if truthy_opt (p_role updates) && negb (String.eqb (claim_role caller) "admin")
  then (Sent (forbidden "Only admin users can change user roles"), db)
  else
    match updateUserService now salt i updates db with
    | (Ok updatedUser, db') =>
        (Sent (json 200 (with_user [("success", JBool true);
                                    ("message", JStr "User updated successfully")]
                                   (option_map UserView_json updatedUser))), db')
    | (Throw message, db') => (user_not_found message, db')
    end.
Proof.
  intros Hi Hu Hc. unfold updateUser, respond, bind, ret. rewrite Hi, Hu, Hc.
  destruct (negb (String.eqb (claim_role caller) "admin")
            && negb (Z.eqb (claim_id caller) i)); [reflexivity|].
  destruct (truthy_opt (p_role updates)
            && negb (String.eqb (claim_role caller) "admin")); [reflexivity|].
  destruct (updateUserService now salt i updates db) as [[u|m] db']; reflexivity.
Qed.

Lemma deleteUser_valid (req : Request) (caller : Claims) (i : Z) (db : DB) :
  userIdSchema (req_params_id req) = inr i ->
  req_user req = Some caller ->
  deleteUser req db =
  if negb (String.eqb (claim_role caller) "admin") && negb (Z.eqb (claim_id caller) i)
  then (Sent (forbidden "You can only delete your own account"), db)
  else if String.eqb (claim_role caller) "admin" && Z.eqb (claim_id caller) i
  then (Sent (json 403 (JObj [("error", JStr "Action not allowed");
                              ("message", JStr "Admin users cannot delete their own account")])),
        db)
  else
    match deleteUserService i db with
    | (Ok deletedUser, db') =>
        (Sent (json 200 (with_user [("success", JBool true);
                                    ("message", JStr "User deleted successfully")]
                                   (option_map DeletedUser_json deletedUser))), db')
    | (Throw message, db') => (user_not_found message, db')
    end.
Proof.
  intros Hi Hc. unfold deleteUser, respond, bind, ret. rewrite Hi, Hc.
  destruct (negb (String.eqb (claim_role caller) "admin")
            && negb (Z.eqb (claim_id caller) i)); [reflexivity|].
  destruct (String.eqb (claim_role caller) "admin" && Z.eqb (claim_id caller) i);
    [reflexivity|].
  destruct (deleteUserService i db) as [[u|m] db']; reflexivity.
Qed.





(** ** Middleware and routes *)

Lemma authenticateToken_eq (req : Request) :
  authenticateToken req =
  match cookie_token req with
  | None => inl no_token
  | Some t =>
      if String.eqb t "" then inl no_token
      else match jwt_verify t with
           | Some claims => inr (set_user req claims)
           | None => inl invalid_token
           end
  end.
Proof.
  unfold authenticateToken, truthy, set_user.
  destruct (cookie_token req) as [t|]; [|reflexivity].
  destruct (String.eqb t ""); reflexivity.
Qed.

Lemma protected (r : Route) :
  In r router -> middleware r = [AuthenticateToken].
Proof.
  unfold router. simpl.
  intros [H | [H | [H | [H | []]]]]; subst r; reflexivity.
Qed.

Lemma through_verified
  (r : Route) (req : Request) (t : string) (claims : Claims) (handler : Handler) (db : DB) :
  In r router ->
  cookie_token req = Some t -> t <> "" -> jwt_verify t = Some claims ->
  through (middleware r) handler req db = handler (set_user req claims) db.
Proof.
  intros Hr Ht Hne Hv. rewrite (protected r Hr). simpl through.
  rewrite authenticateToken_eq, Ht, Hv.
  apply String.eqb_neq in Hne. rewrite Hne. reflexivity.
Qed.

(** C8.  On every route of the users router: when the token cookie is
    absent (or empty), or [verify] rejects it, the answer is a 401 that
    does not depend on the handler, which is therefore never run, and
    the database is untouched; when [verify] accepts the token, the
    handler runs on the request with the decoded claims in [req.user];
    and the middleware lets a request pass only in that last case. *)
Theorem token_gate (r : Route) (req : Request) :
  In r router ->
  (truthy_opt (cookie_token req) = false ->
     exists res, status res = 401
       /\ forall handler db, through (middleware r) handler req db = (Sent res, db))
  /\ (forall t, cookie_token req = Some t -> jwt_verify t = None ->
        exists res, status res = 401
          /\ forall handler db, through (middleware r) handler req db = (Sent res, db))
  /\ (forall t claims,
        cookie_token req = Some t -> t <> "" -> jwt_verify t = Some claims ->
        forall handler db,
          through (middleware r) handler req db = handler (set_user req claims) db)
  /\ (forall req',
        authenticateToken req = inr req' ->
        exists t claims,
          cookie_token req = Some t /\ t <> "" /\ jwt_verify t = Some claims
          /\ req' = set_user req claims /\ req_user req' = Some claims).
Proof.
  intros Hr. rewrite (protected r Hr). simpl through.
  rewrite authenticateToken_eq.
  repeat split.
  - intros Habs. exists no_token. split; [reflexivity|]. intros handler db.
    destruct (cookie_token req) as [t|]; [|reflexivity].
    simpl in Habs. unfold truthy in Habs.
    destruct (String.eqb t ""); [reflexivity | discriminate].
  - intros t Ht Hv. rewrite Ht, Hv.
    destruct (String.eqb t "").
    + exists no_token. split; reflexivity.
    + exists invalid_token. split; reflexivity.
  - intros t claims Ht Hne Hv handler db. rewrite Ht, Hv.
    apply String.eqb_neq in Hne. rewrite Hne. reflexivity.
  - intros req' H.
    destruct (cookie_token req) as [t|]; [|discriminate].
    destruct (String.eqb t "") eqn:Hne; [discriminate|].
    destruct (jwt_verify t) as [claims|] eqn:Hv; [|discriminate].
    inversion H; subst req'. exists t, claims.
    apply String.eqb_neq in Hne. repeat split; assumption || reflexivity.
Qed.

(** C9.  Every sign-up answered with 201 has stored a new user, returns
    that user's [{id, name, email, role}], and sets the cookie [token] to
    the signed claims [{id, email, role}] of that user.  Provided
    [verify] decodes what [sign] produced and tokens are non-empty, a
    request carrying that cookie passes [authenticateToken] as the new
    user, with no sign-in in between. *)
Theorem signup_signs_token
  (now : Z) (salt : Salt) (req : Request) (db db' : DB) (res : Response) :
  signup now salt req db = (Sent res, db') ->
  status res = 201 ->
  exists u,
    registered (users.email u) db = false
    /\ by_email (users.email u) db' = Some u
    /\ get "user" (body res) =
       Some (JObj [("id", JNum (users.id u)); ("name", JStr (users.name u));
                   ("email", JStr (users.email u)); ("role", JStr (users.role u))])
    /\ res_cookies res =
       [("token", jwt_sign (mkClaims (users.id u) (users.email u) (users.role u)))]
    /\ ((forall c, jwt_verify (jwt_sign c) = Some c) ->
        (forall c, jwt_sign c <> "") ->
        forall id b,
          authenticateToken (mkRequest (Some (res_cookies res)) id b None)
          = inr (mkRequest (Some (res_cookies res)) id b
                   (Some (mkClaims (users.id u) (users.email u) (users.role u))))).
Proof.
  intros E S.
  destruct (signupSchema (req_body req)) as [error|d] eqn:Hv.
  - unfold signup, respond, ret in E. rewrite Hv in E.
    inversion E; subst. discriminate.
  - rewrite (signup_valid now salt req d db Hv), createUser_eq in E.
    destruct (registered (sd_email d) db) eqn:Hreg.
    + simpl in E. inversion E; subst. discriminate.
    + inversion E; subst. clear E S.
      exists (new_row now salt d db).
      split; [exact Hreg|]. split.
      * unfold by_email. simpl.
        rewrite registered_by_email in Hreg. unfold by_email in Hreg.
        destruct (find (eq_email (sd_email d)) (users_rows db)) eqn:F; [discriminate|].
        clear Hreg. revert F. generalize (users_rows db) as rows.
        induction rows as [|x rows IH]; simpl.
        -- intros _. unfold eq_email. simpl. rewrite String.eqb_refl. reflexivity.
        -- destruct (eq_email (sd_email d) x); [discriminate | exact IH].
      * split; [reflexivity|]. split; [reflexivity|].
        intros Hvs Hne id b. rewrite authenticateToken_eq. simpl.
        rewrite Hvs.
        destruct (String.eqb _ "") eqn:T; [|reflexivity].
        apply String.eqb_eq in T. apply Hne in T. contradiction.
Qed.

Lemma by_id_unique (rows : list users.row) (u : users.row) :
  NoDup (map users.id rows) -> In u rows -> find (eq_id (users.id u)) rows = Some u.
Proof.
  induction rows as [|x rows IH]; simpl; intros Hnd Hin; [contradiction|].
  inversion Hnd as [|? ? Hnotin Hnd']; subst.
  destruct Hin as [-> | Hin].
  - unfold eq_id. rewrite Z.eqb_refl. reflexivity.
  - destruct (eq_id (users.id u) x) eqn:E.
    + unfold eq_id in E. apply Z.eqb_eq in E.
      exfalso. apply Hnotin. rewrite E. apply in_map. exact Hin.
    + apply IH; assumption.
Qed.

(** C10.  Reads are open to every authenticated caller.  With a token
    that [verify] accepts, whatever claims it decodes to, the list route
    answers 200 with [{id, email, name, role, created_at, updated_at}] of
    every row and their count, and the by-id route answers 200 with the
    same six fields of the row that has the id; under the primary key this
    reaches any existing user (ids are 32-bit integers).  No route of the
    users router carries [requireRole]. *)
Theorem reads_unrestricted
  (now : Z) (salt : Salt) (req : Request) (t : string) (claims : Claims) (db : DB) :
  cookie_token req = Some t -> t <> "" -> jwt_verify t = Some claims ->
  (forall r, In r router -> controller r = GetAllUsers ->
     serve now salt r req db
     = (Sent (mkResponse 200
                (JObj [("success", JBool true);
                       ("message", JStr "All users retrieved successfully");
                       ("users",
                        JArr (map (fun u =>
                                JObj [("id", JNum (users.id u));
                                      ("email", JStr (users.email u));
                                      ("name", JStr (users.name u));
                                      ("role", JStr (users.role u));
                                      ("created_at", JNum (users.created_at u));
                                      ("updated_at", JNum (users.updated_at u))])
                                (users_rows db)));
                       ("count", JNum (Z.of_nat (List.length (users_rows db))))])
                []), db))
  /\ (forall r i u, In r router -> controller r = GetUserById ->
        userIdSchema (req_params_id req) = inr i -> by_id i db = Some u ->
        serve now salt r req db
        = (Sent (mkResponse 200
                   (JObj [("success", JBool true);
                          ("message", JStr "User retrieved successfully");
                          ("user",
                           JObj [("id", JNum (users.id u));
                                 ("email", JStr (users.email u));
                                 ("name", JStr (users.name u));
                                 ("role", JStr (users.role u));
                                 ("created_at", JNum (users.created_at u));
                                 ("updated_at", JNum (users.updated_at u))])])
                   []), db))
  /\ (forall r u, In r router -> controller r = GetUserById ->
        consistent db -> In u (users_rows db) -> int4 (users.id u) = true ->
        userIdSchema (req_params_id req) = inr (users.id u) ->
        exists res,
          serve now salt r req db = (Sent res, db) /\ status res = 200
          /\ get_path ["user"; "id"] (body res) = Some (JNum (users.id u))
          /\ get_path ["user"; "email"] (body res) = Some (JStr (users.email u))
          /\ get_path ["user"; "name"] (body res) = Some (JStr (users.name u))
          /\ get_path ["user"; "role"] (body res) = Some (JStr (users.role u)))
  /\ (forall r, In r router -> existsb is_requireRole (middleware r) = false).
Proof.
  intros Ht Hne Hv.
  assert (G : forall r i u, In r router -> controller r = GetUserById ->
              userIdSchema (req_params_id req) = inr i -> by_id i db = Some u ->
              serve now salt r req db = (Sent (json 200 (one_user_body u)), db)).
  { intros r i u Hr Hc Hi Hfind. unfold serve.
    rewrite (through_verified r req t claims _ db Hr Ht Hne Hv), Hc.
    simpl run_controller.
    unfold getUserById, respond, bind, ret, set_user. cbn [req_params_id]. rewrite Hi.
    rewrite getUserByIdService_eq, Hfind. reflexivity. }
  split; [|split; [|split]].
  - intros r Hr Hc. unfold serve.
    rewrite (through_verified r req t claims _ db Hr Ht Hne Hv), Hc.
    simpl run_controller.
    unfold getAllUsers, respond, bind, ret, getAllUsersService, try_catch,
      select_from_users, json. simpl.
    rewrite map_map, length_map. reflexivity.
  - intros r i u Hr Hc Hi Hfind. rewrite (G r i u Hr Hc Hi Hfind). reflexivity.
  - intros r u Hr Hc [Hnd _] Hin Hrange Hi.
    eexists. split.
    + apply (G r (users.id u) u Hr Hc Hi).
      rewrite (by_id_in_range _ _ Hrange). apply by_id_unique; assumption.
    + repeat split; reflexivity.
  - intros r Hr. rewrite (protected r Hr). reflexivity.
Qed.

(** ** Passwords in storage and in responses *)

Lemma hashPassword_is_hash (salt : Salt) (password : string) :
  is_hash (hashPassword salt password).
Proof. exists password, salt. reflexivity. Qed.

Lemma createUser_hashed (now : Z) (salt : Salt) (d : SignupData) (db : DB) :
  all_hashed db -> all_hashed (snd (createUser now salt d db)).
Proof.
  intros H. rewrite createUser_eq.
  destruct (registered (sd_email d) db); simpl; [exact H|].
  unfold all_hashed. simpl. apply Forall_app. split; [exact H|].
  constructor; [apply hashPassword_is_hash | constructor].
Qed.

Lemma authenticateUser_hashed (c : SignInData) (db : DB) :
  all_hashed db -> all_hashed (snd (authenticateUser c db)).
Proof.
  intros H. rewrite authenticateUser_eq.
  destruct (by_email (si_email c) db) as [user|]; [|exact H].
  destruct (bcrypt_compare (si_password c) (users.password user)); exact H.
Qed.

Lemma set_row_hashed (salt : Salt) (updates : Patch) (now : Z) (r : users.row) :
  well_formed updates = true ->
  is_hash (users.password r) ->
  is_hash (users.password (set_row (hash_updates salt updates) now r)).
Proof.
  intros Hwf Hr. apply andb_prop in Hwf. destruct Hwf as [Hpw _].
  unfold hash_updates. simpl.
  destruct (p_password updates) as [pw|] eqn:E.
  - rewrite Hpw. simpl. apply hashPassword_is_hash.
  - rewrite E. exact Hr.
Qed.

Lemma updateUserService_hashed
  (now : Z) (salt : Salt) (i : Z) (updates : Patch) (db : DB) :
  well_formed updates = true ->
  all_hashed db -> all_hashed (snd (updateUserService now salt i updates db)).
Proof.
  intros Hwf H. rewrite updateUserService_eq.
  destruct (by_id i db) as [u|]; [|destruct (int4 i); exact H].
  destruct (email_conflict updates i (users_rows db)); [exact H|].
  unfold all_hashed in *. simpl.
  apply Forall_forall. intros r Hin. apply in_map_iff in Hin.
  destruct Hin as [r0 [Hr0 Hin0]]. rewrite Forall_forall in H.
  destruct (eq_id i r0); subst r.
  - apply set_row_hashed; [exact Hwf | apply H; exact Hin0].
  - apply H; exact Hin0.
Qed.

Lemma deleteUserService_hashed (i : Z) (db : DB) :
  all_hashed db -> all_hashed (snd (deleteUserService i db)).
Proof.
  intros H. rewrite deleteUserService_eq.
  destruct (by_id i db) as [u|]; [|destruct (int4 i); exact H].
  unfold all_hashed in *. simpl.
  apply Forall_forall. intros r Hin. apply filter_In in Hin.
  rewrite Forall_forall in H. apply H. apply Hin.
Qed.

Lemma views_hide_password (l : list UserView) :
  existsb (mentions "password") (map UserView_json l) = false.
Proof. induction l as [|u l IH]; simpl; [reflexivity | exact IH]. Qed.

Ltac sent E :=
  simpl in E; inversion E; subst; clear E; simpl in *;
  try reflexivity; try congruence.

(** Outside the 400 answers, no body of the six operations has a
    [password] field at any depth. *)
Lemma signup_hides_password
  (now : Z) (salt : Salt) (req : Request) (db db' : DB) (res : Response) :
  signup now salt req db = (Sent res, db') -> status res <> 400 ->
  mentions "password" (body res) = false.
Proof.
  intros E S. unfold signup, respond, bind, ret in E.
  destruct (signupSchema (req_body req)) as [error|d]; [sent E|].
  destruct (createUser now salt _ db) as [[user|m] db'']; [sent E|].
  destruct (has_message m "User with this email already exists"); sent E.
Qed.

Lemma signin_hides_password (req : Request) (db db' : DB) (res : Response) :
  signin req db = (Sent res, db') -> status res <> 400 ->
  mentions "password" (body res) = false.
Proof.
  intros E S. unfold signin, respond, bind, ret in E.
  destruct (signInSchema (req_body req)) as [error|c];
    [destruct (nullish (req_body req)); sent E|].
  destruct (authenticateUser _ db) as [[user|m] db'']; [sent E|].
  destruct (has_message m "User not found"); [sent E|].
  destruct (has_message m "Invalid password"); sent E.
Qed.

Lemma getAllUsers_hides_password (req : Request) (db db' : DB) (res : Response) :
  getAllUsers req db = (Sent res, db') ->
  mentions "password" (body res) = false.
Proof.
  intros E. unfold getAllUsers, respond, bind, ret, getAllUsersService, try_catch,
    select_from_users in E.
  inversion E; subst; clear E. simpl.
  rewrite views_hide_password. reflexivity.
Qed.

Lemma getUserById_hides_password (req : Request) (db db' : DB) (res : Response) :
  getUserById req db = (Sent res, db') -> status res <> 400 ->
  mentions "password" (body res) = false.
Proof.
  intros E S. unfold getUserById, respond, bind, ret, validation_failed in E.
  destruct (userIdSchema (req_params_id req)) as [error|i]; [sent E|].
  destruct (getUserByIdService i db) as [[user|m] db'']; [sent E|].
  unfold user_not_found in E.
  destruct (has_message m "User not found"); sent E.
Qed.

Lemma updateUser_hides_password
  (now : Z) (salt : Salt) (req : Request) (db db' : DB) (res : Response) :
  updateUser now salt req db = (Sent res, db') -> status res <> 400 ->
  mentions "password" (body res) = false.
Proof.
  intros E S. unfold updateUser, respond, bind, ret, throw, validation_failed in E.
  destruct (userIdSchema (req_params_id req)) as [error|i]; [sent E|].
  destruct (updateUserSchema (req_body req)) as [error|updates]; [sent E|].
  destruct (req_user req) as [caller|]; [|sent E].
  destruct (negb (String.eqb (claim_role caller) "admin")
            && negb (Z.eqb (claim_id caller) i)); [sent E|].
  destruct (truthy_opt (p_role updates)
            && negb (String.eqb (claim_role caller) "admin")); [sent E|].
  destruct (updateUserService now salt i updates db) as [[[u|]|m] db'']; [sent E|sent E|].
  unfold user_not_found in E.
  destruct (has_message m "User not found"); sent E.
Qed.

Lemma deleteUser_hides_password (req : Request) (db db' : DB) (res : Response) :
  deleteUser req db = (Sent res, db') -> status res <> 400 ->
  mentions "password" (body res) = false.
Proof.
  intros E S. unfold deleteUser, respond, bind, ret, throw, validation_failed in E.
  destruct (userIdSchema (req_params_id req)) as [error|i]; [sent E|].
  destruct (req_user req) as [caller|]; [|sent E].
  destruct (negb (String.eqb (claim_role caller) "admin")
            && negb (Z.eqb (claim_id caller) i)); [sent E|].
  destruct (String.eqb (claim_role caller) "admin" && Z.eqb (claim_id caller) i);
    [sent E|].
  destruct (deleteUserService i db) as [[[u|]|m] db'']; [sent E|sent E|].
  unfold user_not_found in E.
  destruct (has_message m "User not found"); sent E.
Qed.

(** A sign-up or sign-in body that fails validation is sent back whole
    under [data]. *)
Lemma signup_rejected (now : Z) (salt : Salt) (req : Request) (error : ZodError) (db : DB) :
  signupSchema (req_body req) = inl error ->
  signup now salt req db
  = (Sent (json 400 (JObj [("error", JStr "Validation failedhgfdsfgh");
                           ("details", formatValidationError error);
                           ("data", req_body req)])), db).
Proof. intros H. unfold signup, respond, ret. rewrite H. reflexivity. Qed.

Lemma signin_rejected (req : Request) (error : ZodError) (db : DB) :
  signInSchema (req_body req) = inl error ->
  nullish (req_body req) = false ->
  signin req db
  = (Sent (json 400 (JObj [("error", JStr "Validation failed");
                           ("details", formatValidationError error);
                           ("data", req_body req)])), db).
Proof. intros H N. unfold signin, respond, ret. rewrite H, N. reflexivity. Qed.

(** ** The constraints of the table are maintained *)

Lemma NoDup_map_filter {B : Type} (g : users.row -> B) (p : users.row -> bool)
  (rows : list users.row) :
  NoDup (map g rows) -> NoDup (map g (filter p rows)).
Proof.
  induction rows as [|x rows IH]; simpl; intros H; [constructor|].
  inversion H as [|? ? Hnotin Hnd]; subst.
  destruct (p x); simpl; [|apply IH; exact Hnd].
  constructor; [|apply IH; exact Hnd].
  intros Hin. apply Hnotin. apply in_map_iff in Hin.
  destruct Hin as [y [Hy Hin]]. apply filter_In in Hin.
  rewrite <- Hy. apply in_map. apply Hin.
Qed.

Lemma createUser_consistent (now : Z) (salt : Salt) (d : SignupData) (db : DB) :
  consistent db -> consistent (snd (createUser now salt d db)).
Proof.
  intros [Hid [Hem Hseq]]. rewrite createUser_eq.
  destruct (registered (sd_email d) db) eqn:Hreg; simpl; [repeat split; assumption|].
  unfold consistent. simpl. rewrite !map_app. simpl. repeat split.
  - apply NoDup_app; [exact Hid | repeat constructor; intros [] |].
    intros a Hin [Ha | []]. apply in_map_iff in Hin.
    destruct Hin as [r [Hr Hin]]. apply Hseq in Hin. lia.
  - apply NoDup_app; [exact Hem | repeat constructor; intros [] |].
    intros a Hin [Ha | []]. apply in_map_iff in Hin.
    destruct Hin as [r [Hr Hin]].
    assert (T : registered (sd_email d) db = true).
    { apply existsb_exists. exists r. split; [exact Hin|].
      unfold eq_email. apply String.eqb_eq. congruence. }
    congruence.
  - intros r Hin. apply in_app_or in Hin. destruct Hin as [Hin | [<- | []]].
    + apply Hseq in Hin. lia.
    + simpl. lia.
Qed.

Lemma deleteUserService_consistent (i : Z) (db : DB) :
  consistent db -> consistent (snd (deleteUserService i db)).
Proof.
  intros [Hid [Hem Hseq]]. rewrite deleteUserService_eq.
  destruct (by_id i db) as [u|]; simpl;
    [|destruct (int4 i); repeat split; assumption].
  unfold consistent. simpl. repeat split.
  - apply NoDup_map_filter. exact Hid.
  - apply NoDup_map_filter. exact Hem.
  - intros r Hin. apply filter_In in Hin. apply Hseq. apply Hin.
Qed.

Lemma update_keeps_emails_unique
  (updates : Patch) (now i : Z) (rows : list users.row) :
  NoDup (map users.id rows) ->
  NoDup (map users.email rows) ->
  email_conflict updates i rows = false ->
  NoDup (map users.email
           (map (fun r => if eq_id i r then set_row updates now r else r) rows)).
Proof.
  unfold email_conflict. destruct (p_email updates) as [e|] eqn:He.
  - intros Hid Hem Hfree.
    assert (Hother : forall r, In r rows -> eq_id i r = false -> users.email r <> e).
    { intros r Hin Hne Heq.
      assert (T : existsb (fun r => negb (eq_id i r) && eq_email e r) rows = true).
      { apply existsb_exists. exists r. split; [exact Hin|].
        rewrite Hne. simpl. unfold eq_email. rewrite Heq. apply String.eqb_refl. }
      congruence. }
    assert (Hset : forall r, users.email (set_row updates now r) = e).
    { intros r. simpl. rewrite He. reflexivity. }
    clear Hfree. induction rows as [|x rows IH]; simpl; [constructor|].
    inversion Hid as [|? ? Hxid Hid']; inversion Hem as [|? ? Hxem Hem']; subst.
    constructor.
    + intros Hin. apply in_map_iff in Hin. destruct Hin as [y' [Hy' Hin']].
      apply in_map_iff in Hin'. destruct Hin' as [y [Hy Hin]]. subst y'.
      destruct (eq_id i x) eqn:Ex; destruct (eq_id i y) eqn:Ey.
      * unfold eq_id in Ex, Ey. apply Z.eqb_eq in Ex. apply Z.eqb_eq in Ey.
        apply Hxid. rewrite Ex, <- Ey. apply in_map. exact Hin.
      * rewrite Hset in Hy'. apply (Hother y); [right; exact Hin | exact Ey | exact Hy'].
      * rewrite Hset in Hy'. apply (Hother x); [left; reflexivity | exact Ex |].
        symmetry. exact Hy'.
      * apply Hxem. rewrite <- Hy'. apply in_map. exact Hin.
    + apply IH; [exact Hid' | exact Hem' |].
      intros r Hin. apply Hother. right. exact Hin.
  - intros _ Hem _. rewrite map_map.
    replace (map (fun r => users.email (if eq_id i r then set_row updates now r else r)) rows)
      with (map users.email rows); [exact Hem|].
    apply map_ext. intros r. destruct (eq_id i r); [|reflexivity].
    simpl. rewrite He. reflexivity.
Qed.

Lemma updateUserService_consistent
  (now : Z) (salt : Salt) (i : Z) (updates : Patch) (db : DB) :
  consistent db -> consistent (snd (updateUserService now salt i updates db)).
Proof.
  intros [Hid [Hem Hseq]]. rewrite updateUserService_eq.
  destruct (by_id i db) as [u|]; simpl;
    [|destruct (int4 i); repeat split; assumption].
  destruct (email_conflict updates i (users_rows db)) eqn:Hfree; simpl;
    [repeat split; assumption|].
  assert (Hids : forall rows,
             map users.id
               (map (fun r => if eq_id i r
                              then set_row (hash_updates salt updates) now r else r) rows)
             = map users.id rows).
  { intros rows. rewrite map_map. apply map_ext. intros r.
    destruct (eq_id i r); reflexivity. }
  unfold consistent. simpl. repeat split.
  - rewrite Hids. exact Hid.
  - apply update_keeps_emails_unique; [exact Hid | exact Hem |].
    unfold email_conflict in *. rewrite hash_updates_email. exact Hfree.
  - intros r Hin. apply in_map_iff in Hin. destruct Hin as [r0 [Hr0 Hin]].
    apply Hseq in Hin. destruct (eq_id i r0); subst r; simpl; exact Hin.
Qed.

Lemma authenticateUser_consistent (c : SignInData) (db : DB) :
  consistent db -> consistent (snd (authenticateUser c db)).
Proof.
  intros H. rewrite authenticateUser_eq.
  destruct (by_email (si_email c) db) as [user|]; [|exact H].
  destruct (bcrypt_compare (si_password c) (users.password user)); exact H.
Qed.

End Properties.

(** * Further properties of the services, controllers and middleware *)

Section Coverage.
Context {bcrypt : Bcrypt} {jwttoken : Jwt} {zod : Validation}.

(** ** The controllers, case by case *)

Lemma signup_eq (now : Z) (salt : Salt) (req : Request) (db : DB) :
  signup now salt req db =
  match signupSchema (req_body req) with
  | inl error =>
      (Sent (json 400 (JObj [("error", JStr "Validation failedhgfdsfgh");
                             ("details", formatValidationError error);
                             ("data", req_body req)])), db)
  | inr d =>
      if registered (sd_email d) db
      then (Sent (json 409 (JObj [("error", JStr "User with this email already exists")])),
            db)
      else (Sent (registered_response (new_row now salt d db)), inserted now salt d db)
  end.
Proof.
  destruct (signupSchema (req_body req)) as [error|d] eqn:Hv.
  - apply signup_rejected. exact Hv.
  - rewrite (signup_valid now salt req d db Hv), createUser_eq.
    destruct (registered (sd_email d) db); reflexivity.
Qed.

Lemma signin_eq (req : Request) (db : DB) :
  signin req db =
  match signInSchema (req_body req) with
  | inl error =>
      if nullish (req_body req)
      then (NextErr (TypeError "email"), db)
      else (Sent (json 400 (JObj [("error", JStr "Validation failed");
                                  ("details", formatValidationError error);
                                  ("data", req_body req)])), db)
  | inr c =>
      match by_email (si_email c) db with
      | None => (Sent (json 404 (JObj [("error", JStr "User not found")])), db)
      | Some u =>
          if bcrypt_compare (si_password c) (users.password u)
          then (Sent (signed_in_response u), db)
          else (Sent (json 401 (JObj [("error", JStr "Invalid credentials")])), db)
      end
  end.
Proof.
  destruct (signInSchema (req_body req)) as [error|c] eqn:Hv.
  - destruct (nullish (req_body req)) eqn:N; [|apply signin_rejected; assumption].
    unfold signin, respond, throw. rewrite Hv, N. reflexivity.
  - rewrite (signin_valid req c db Hv), authenticateUser_eq.
    destruct (by_email (si_email c) db) as [u|]; [|reflexivity].
    destruct (bcrypt_compare (si_password c) (users.password u)); reflexivity.
Qed.

Lemma getAllUsers_eq (req : Request) (db : DB) :
  getAllUsers req db = (Sent (json 200 (all_users_body db)), db).
Proof.
  unfold getAllUsers, respond, bind, ret, getAllUsersService, try_catch,
    select_from_users, all_users_body. simpl.
  rewrite map_map, length_map. reflexivity.
Qed.

Lemma getUserById_eq (req : Request) (db : DB) :
  getUserById req db =
  match userIdSchema (req_params_id req) with
  | inl error => (Sent (validation_failed error), db)
  | inr i =>
      match by_id i db with
      | None => if int4 i then (Sent not_found, db) else (NextErr out_of_range, db)
      | Some u => (Sent (json 200 (one_user_body u)), db)
      end
  end.
Proof.
  unfold getUserById, respond, bind, ret.
  destruct (userIdSchema (req_params_id req)) as [error|i]; [reflexivity|].
  rewrite getUserByIdService_eq.
  destruct (by_id i db); [reflexivity|].
  destruct (int4 i); reflexivity.
Qed.

Lemma updateUser_eq (now : Z) (salt : Salt) (req : Request) (db : DB) :
  updateUser now salt req db =
  match userIdSchema (req_params_id req) with
  | inl error => (Sent (validation_failed error), db)
  | inr i =>
      match updateUserSchema (req_body req) with
      | inl error => (Sent (validation_failed error), db)
      | inr updates =>
          match req_user req with
          | None => (NextErr undefined_user, db)
          | Some caller =>
              if negb (String.eqb (claim_role caller) "admin")
                 && negb (Z.eqb (claim_id caller) i)
              then (Sent (forbidden "You can only update your own profile"), db)
              else if truthy_opt (p_role updates)
                      && negb (String.eqb (claim_role caller) "admin")
              then (Sent (forbidden "Only admin users can change user roles"), db)
              else
                match by_id i db with
                | None =>
                    if int4 i then (Sent not_found, db) else (NextErr out_of_range, db)
                | Some u =>
                    if email_conflict updates i (users_rows db)
                    then (NextErr unique_violation, db)
                    else
                      (Sent (json 200
                               (JObj [("success", JBool true);
                                      ("message", JStr "User updated successfully");
                                      ("user",
                                       UserView_json
                                         (user_view
                                            (set_row (hash_updates salt updates) now u)))])),
                       updated now salt i updates db)
                end
          end
      end
  end.
Proof.
  destruct (userIdSchema (req_params_id req)) as [error|i] eqn:Hi;
    [unfold updateUser, respond, ret; rewrite Hi; reflexivity|].
  destruct (updateUserSchema (req_body req)) as [error|updates] eqn:Hu;
    [unfold updateUser, respond, ret; rewrite Hi, Hu; reflexivity|].
  destruct (req_user req) as [caller|] eqn:Hc;
    [|unfold updateUser, respond, throw; rewrite Hi, Hu, Hc; reflexivity].
  rewrite (updateUser_valid now salt req caller i updates db Hi Hu Hc).
  destruct (negb (String.eqb (claim_role caller) "admin")
            && negb (Z.eqb (claim_id caller) i)); [reflexivity|].
  destruct (truthy_opt (p_role updates)
            && negb (String.eqb (claim_role caller) "admin")); [reflexivity|].
  rewrite updateUserService_eq.
  destruct (by_id i db) as [u|]; [|destruct (int4 i); reflexivity].
  destruct (email_conflict updates i (users_rows db)); reflexivity.
Qed.

Lemma deleteUser_eq (req : Request) (db : DB) :
  deleteUser req db =
  match userIdSchema (req_params_id req) with
  | inl error => (Sent (validation_failed error), db)
  | inr i =>
      match req_user req with
      | None => (NextErr undefined_user, db)
      | Some caller =>
          if negb (String.eqb (claim_role caller) "admin")
             && negb (Z.eqb (claim_id caller) i)
          then (Sent (forbidden "You can only delete your own account"), db)
          else if String.eqb (claim_role caller) "admin" && Z.eqb (claim_id caller) i
          then (Sent (json 403
                        (JObj [("error", JStr "Action not allowed");
                               ("message",
                                JStr "Admin users cannot delete their own account")])), db)
          else
            match by_id i db with
            | None =>
                if int4 i then (Sent not_found, db) else (NextErr out_of_range, db)
            | Some u =>
                (Sent (json 200
                         (JObj [("success", JBool true);
                                ("message", JStr "User deleted successfully");
                                ("user", DeletedUser_json (deleted_user u))])),
                 deleted i db)
            end
      end
  end.
Proof.
  destruct (userIdSchema (req_params_id req)) as [error|i] eqn:Hi;
    [unfold deleteUser, respond, ret; rewrite Hi; reflexivity|].
  destruct (req_user req) as [caller|] eqn:Hc;
    [|unfold deleteUser, respond, throw; rewrite Hi, Hc; reflexivity].
  rewrite (deleteUser_valid req caller i db Hi Hc).
  destruct (negb (String.eqb (claim_role caller) "admin")
            && negb (Z.eqb (claim_id caller) i)); [reflexivity|].
  destruct (String.eqb (claim_role caller) "admin" && Z.eqb (claim_id caller) i);
    [reflexivity|].
  rewrite deleteUserService_eq.
  destruct (by_id i db) as [u|]; [reflexivity|].
  destruct (int4 i); reflexivity.
Qed.

(** ** What the table looks like after each statement *)

Lemma inserted_consistent (now : Z) (salt : Salt) (d : SignupData) (db : DB) :
  consistent db -> registered (sd_email d) db = false ->
  consistent (inserted now salt d db).
Proof.
  intros H Hr. pose proof (createUser_consistent now salt d db H) as C.
  rewrite createUser_eq, Hr in C. exact C.
Qed.

Lemma updated_consistent
  (now : Z) (salt : Salt) (i : Z) (updates : Patch) (u : users.row) (db : DB) :
  consistent db -> by_id i db = Some u ->
  email_conflict updates i (users_rows db) = false ->
  consistent (updated now salt i updates db).
Proof.
  intros H Hu Hf. pose proof (updateUserService_consistent now salt i updates db H) as C.
  rewrite updateUserService_eq, Hu, Hf in C. exact C.
Qed.

Lemma deleted_consistent (i : Z) (db : DB) :
  consistent db -> consistent (deleted i db).
Proof.
  intros [Hid [Hem Hseq]]. unfold consistent, deleted, others. simpl. repeat split.
  - apply NoDup_map_filter. exact Hid.
  - apply NoDup_map_filter. exact Hem.
  - intros r Hin. apply filter_In in Hin. apply Hseq. apply Hin.
Qed.

Lemma inserted_hashed (now : Z) (salt : Salt) (d : SignupData) (db : DB) :
  all_hashed db -> all_hashed (inserted now salt d db).
Proof.
  intros H. unfold all_hashed, inserted. simpl. apply Forall_app. split; [exact H|].
  constructor; [apply hashPassword_is_hash | constructor].
Qed.

Lemma updated_hashed (now : Z) (salt : Salt) (i : Z) (updates : Patch) (db : DB) :
  well_formed updates = true -> all_hashed db ->
  all_hashed (updated now salt i updates db).
Proof.
  intros Hwf H. unfold all_hashed, updated in *. simpl.
  apply Forall_forall. intros r Hin. apply in_map_iff in Hin.
  destruct Hin as [r0 [Hr0 Hin0]]. rewrite Forall_forall in H.
  destruct (eq_id i r0); subst r.
  - apply set_row_hashed; [exact Hwf | apply H; exact Hin0].
  - apply H; exact Hin0.
Qed.

Lemma deleted_hashed (i : Z) (db : DB) : all_hashed db -> all_hashed (deleted i db).
Proof.
  intros H. unfold all_hashed, deleted, others in *. simpl.
  apply Forall_forall. intros r Hin. apply filter_In in Hin.
  rewrite Forall_forall in H. apply H. apply Hin.
Qed.

(** ** Invariants of the six operations *)

(** X1.  Every controller keeps the constraints of the table: after any
    request to sign-up, sign-in, list, get, update or delete, ids are
    still pairwise different, emails are still pairwise different, and
    the id sequence is still ahead of every stored id. *)
Theorem controllers_keep_constraints
  (now : Z) (salt : Salt) (req : Request) (db : DB) :
  consistent db ->
  consistent (snd (signup now salt req db))
  /\ consistent (snd (signin req db))
  /\ consistent (snd (getAllUsers req db))
  /\ consistent (snd (getUserById req db))
  /\ consistent (snd (updateUser now salt req db))
  /\ consistent (snd (deleteUser req db)).
Proof.
  intros H. split; [|split; [|split; [|split; [|split]]]].
  - rewrite signup_eq.
    destruct (signupSchema (req_body req)) as [error|d]; [exact H|].
    destruct (registered (sd_email d) db) eqn:Hr; [exact H|].
    apply inserted_consistent; assumption.
  - rewrite signin_eq.
    destruct (signInSchema (req_body req)) as [error|c];
      [destruct (nullish (req_body req)); exact H|].
    destruct (by_email (si_email c) db) as [u|]; [|exact H].
    destruct (bcrypt_compare (si_password c) (users.password u)); exact H.
  - rewrite getAllUsers_eq. exact H.
  - rewrite getUserById_eq.
    destruct (userIdSchema (req_params_id req)) as [error|i]; [exact H|].
    destruct (by_id i db); [|destruct (int4 i)]; exact H.
  - rewrite updateUser_eq.
    destruct (userIdSchema (req_params_id req)) as [error|i]; [exact H|].
    destruct (updateUserSchema (req_body req)) as [error|updates]; [exact H|].
    destruct (req_user req) as [caller|]; [|exact H].
    destruct (negb (String.eqb (claim_role caller) "admin")
              && negb (Z.eqb (claim_id caller) i)); [exact H|].
    destruct (truthy_opt (p_role updates)
              && negb (String.eqb (claim_role caller) "admin")); [exact H|].
    destruct (by_id i db) as [u|] eqn:Hu; [|destruct (int4 i); exact H].
    destruct (email_conflict updates i (users_rows db)) eqn:Hf; [exact H|].
    apply (updated_consistent now salt i updates u db); assumption.
  - rewrite deleteUser_eq.
    destruct (userIdSchema (req_params_id req)) as [error|i]; [exact H|].
    destruct (req_user req) as [caller|]; [|exact H].
    destruct (negb (String.eqb (claim_role caller) "admin")
              && negb (Z.eqb (claim_id caller) i)); [exact H|].
    destruct (String.eqb (claim_role caller) "admin" && Z.eqb (claim_id caller) i);
      [exact H|].
    destruct (by_id i db) as [u|]; [|destruct (int4 i); exact H].
    apply deleted_consistent. exact H.
Qed.

(** X2.  Provided the update schema lets a password through only when it
    is non-empty, every controller keeps the stored passwords hashed: if
    each stored password is an output of [hashSync] before a request, so
    it is afterwards. *)
Theorem controllers_keep_passwords_hashed
  (now : Z) (salt : Salt) (req : Request) (db : DB) :
  (forall b updates, updateUserSchema b = inr updates -> well_formed updates = true) ->
  all_hashed db ->
  all_hashed (snd (signup now salt req db))
  /\ all_hashed (snd (signin req db))
  /\ all_hashed (snd (getAllUsers req db))
  /\ all_hashed (snd (getUserById req db))
  /\ all_hashed (snd (updateUser now salt req db))
  /\ all_hashed (snd (deleteUser req db)).
Proof.
  intros Hschema H. split; [|split; [|split; [|split; [|split]]]].
  - rewrite signup_eq.
    destruct (signupSchema (req_body req)) as [error|d]; [exact H|].
    destruct (registered (sd_email d) db); [exact H|].
    apply inserted_hashed. exact H.
  - rewrite signin_eq.
    destruct (signInSchema (req_body req)) as [error|c];
      [destruct (nullish (req_body req)); exact H|].
    destruct (by_email (si_email c) db) as [u|]; [|exact H].
    destruct (bcrypt_compare (si_password c) (users.password u)); exact H.
  - rewrite getAllUsers_eq. exact H.
  - rewrite getUserById_eq.
    destruct (userIdSchema (req_params_id req)) as [error|i]; [exact H|].
    destruct (by_id i db); [|destruct (int4 i)]; exact H.
  - rewrite updateUser_eq.
    destruct (userIdSchema (req_params_id req)) as [error|i]; [exact H|].
    destruct (updateUserSchema (req_body req)) as [error|updates] eqn:Hu; [exact H|].
    destruct (req_user req) as [caller|]; [|exact H].
    destruct (negb (String.eqb (claim_role caller) "admin")
              && negb (Z.eqb (claim_id caller) i)); [exact H|].
    destruct (truthy_opt (p_role updates)
              && negb (String.eqb (claim_role caller) "admin")); [exact H|].
    destruct (by_id i db) as [u|]; [|destruct (int4 i); exact H].
    destruct (email_conflict updates i (users_rows db)); [exact H|].
    apply updated_hashed; [exact (Hschema _ _ Hu) | exact H].
  - rewrite deleteUser_eq.
    destruct (userIdSchema (req_params_id req)) as [error|i]; [exact H|].
    destruct (req_user req) as [caller|]; [|exact H].
    destruct (negb (String.eqb (claim_role caller) "admin")
              && negb (Z.eqb (claim_id caller) i)); [exact H|].
    destruct (String.eqb (claim_role caller) "admin" && Z.eqb (claim_id caller) i);
      [exact H|].
    destruct (by_id i db) as [u|]; [|destruct (int4 i); exact H].
    apply deleted_hashed. exact H.
Qed.

(** X3.  Only a successful sign-up, update or delete writes.  Sign-in,
    list and get leave the database as it is whatever the request; the
    other three leave it as it is whenever they answer anything but 200
    or 201 (400, 401, 403, 404, 409, or an error passed to [next]). *)
Theorem only_success_writes (now : Z) (salt : Salt) (req : Request) (db : DB) :
  snd (signin req db) = db
  /\ snd (getAllUsers req db) = db
  /\ snd (getUserById req db) = db
  /\ (succeeded (fst (signup now salt req db)) = false ->
      snd (signup now salt req db) = db)
  /\ (succeeded (fst (updateUser now salt req db)) = false ->
      snd (updateUser now salt req db) = db)
  /\ (succeeded (fst (deleteUser req db)) = false ->
      snd (deleteUser req db) = db).
Proof.
  split; [|split; [|split; [|split; [|split]]]].
  - rewrite signin_eq.
    destruct (signInSchema (req_body req)) as [error|c];
      [destruct (nullish (req_body req)); reflexivity|].
    destruct (by_email (si_email c) db) as [u|]; [|reflexivity].
    destruct (bcrypt_compare (si_password c) (users.password u)); reflexivity.
  - rewrite getAllUsers_eq. reflexivity.
  - rewrite getUserById_eq.
    destruct (userIdSchema (req_params_id req)) as [error|i]; [reflexivity|].
    destruct (by_id i db); [|destruct (int4 i)]; reflexivity.
  - rewrite signup_eq.
    destruct (signupSchema (req_body req)) as [error|d]; [reflexivity|].
    destruct (registered (sd_email d) db); [reflexivity|].
    simpl. discriminate.
  - rewrite updateUser_eq.
    destruct (userIdSchema (req_params_id req)) as [error|i]; [reflexivity|].
    destruct (updateUserSchema (req_body req)) as [error|updates]; [reflexivity|].
    destruct (req_user req) as [caller|]; [|reflexivity].
    destruct (negb (String.eqb (claim_role caller) "admin")
              && negb (Z.eqb (claim_id caller) i)); [reflexivity|].
    destruct (truthy_opt (p_role updates)
              && negb (String.eqb (claim_role caller) "admin")); [reflexivity|].
    destruct (by_id i db) as [u|]; [|destruct (int4 i); reflexivity].
    destruct (email_conflict updates i (users_rows db)); [reflexivity|].
    simpl. discriminate.
  - rewrite deleteUser_eq.
    destruct (userIdSchema (req_params_id req)) as [error|i]; [reflexivity|].
    destruct (req_user req) as [caller|]; [|reflexivity].
    destruct (negb (String.eqb (claim_role caller) "admin")
              && negb (Z.eqb (claim_id caller) i)); [reflexivity|].
    destruct (String.eqb (claim_role caller) "admin" && Z.eqb (claim_id caller) i);
      [reflexivity|].
    destruct (by_id i db) as [u|]; [|destruct (int4 i); reflexivity].
    simpl. discriminate.
Qed.

(** ** Who may write *)

Lemma update_checks_passed (caller : Claims) (i : Z) (updates : Patch) :
  negb (String.eqb (claim_role caller) "admin") && negb (Z.eqb (claim_id caller) i) = false ->
  truthy_opt (p_role updates) && negb (String.eqb (claim_role caller) "admin") = false ->
  claim_role caller = "admin"
  \/ (claim_id caller = i /\ truthy_opt (p_role updates) = false).
Proof.
  intros C1 C2.
  destruct (String.eqb (claim_role caller) "admin") eqn:Ha.
  - left. apply String.eqb_eq. exact Ha.
  - right. simpl in C1, C2. rewrite andb_true_r in C2.
    destruct (Z.eqb (claim_id caller) i) eqn:Hi; [|discriminate].
    split; [apply Z.eqb_eq; exact Hi | exact C2].
Qed.

Lemma delete_checks_passed (caller : Claims) (i : Z) :
  negb (String.eqb (claim_role caller) "admin") && negb (Z.eqb (claim_id caller) i) = false ->
  String.eqb (claim_role caller) "admin" && Z.eqb (claim_id caller) i = false ->
  may_delete caller i.
Proof.
  intros C1 C2. unfold may_delete.
  destruct (String.eqb (claim_role caller) "admin") eqn:Ha;
    destruct (Z.eqb (claim_id caller) i) eqn:Hi; try discriminate.
  - left. split; [apply String.eqb_eq; exact Ha | apply Z.eqb_neq; exact Hi].
  - right. split; [apply String.eqb_neq; exact Ha | apply Z.eqb_eq; exact Hi].
Qed.

(** X4.  An update is answered 200 only for a request that passed both
    validations, carries an authenticated caller who is an admin or the
    target user sending no (truthy) role, and names the id of an existing
    row; the database is then the old one with the patch applied to that
    id.  No other request is ever answered 200 by [updateUser]. *)
Theorem update_only_when_authorised
  (now : Z) (salt : Salt) (req : Request) (db db' : DB) (res : Response) :
  updateUser now salt req db = (Sent res, db') ->
  status res = 200 ->
  exists caller i updates u,
    req_user req = Some caller
    /\ userIdSchema (req_params_id req) = inr i
    /\ updateUserSchema (req_body req) = inr updates
    /\ (claim_role caller = "admin"
        \/ (claim_id caller = i /\ truthy_opt (p_role updates) = false))
    /\ by_id i db = Some u
    /\ email_conflict updates i (users_rows db) = false
    /\ db' = updated now salt i updates db.
Proof.
  intros E S. rewrite updateUser_eq in E.
  destruct (userIdSchema (req_params_id req)) as [error|i];
    [inversion E; subst; discriminate|].
  destruct (updateUserSchema (req_body req)) as [error|updates];
    [inversion E; subst; discriminate|].
  destruct (req_user req) as [caller|]; [|discriminate].
  destruct (negb (String.eqb (claim_role caller) "admin")
            && negb (Z.eqb (claim_id caller) i)) eqn:C1;
    [inversion E; subst; discriminate|].
  destruct (truthy_opt (p_role updates)
            && negb (String.eqb (claim_role caller) "admin")) eqn:C2;
    [inversion E; subst; discriminate|].
  destruct (by_id i db) as [u|] eqn:Hu;
    [|destruct (int4 i); inversion E; subst; discriminate].
  destruct (email_conflict updates i (users_rows db)) eqn:Hf; [discriminate|].
  inversion E; subst. exists caller, i, updates, u.
  repeat split; try reflexivity; try assumption.
  apply update_checks_passed; assumption.
Qed.

(** X5.  A delete is answered 200 only for a request with a valid id and
    an authenticated caller who is either an admin naming another id or
    a non-admin naming their own id, and only when a row has that id; the
    database is then the old one without the rows of that id. *)
Theorem delete_only_when_authorised
  (req : Request) (db db' : DB) (res : Response) :
  deleteUser req db = (Sent res, db') ->
  status res = 200 ->
  exists caller i u,
    req_user req = Some caller
    /\ userIdSchema (req_params_id req) = inr i
    /\ may_delete caller i
    /\ by_id i db = Some u
    /\ db' = deleted i db.
Proof.
  intros E S. rewrite deleteUser_eq in E.
  destruct (userIdSchema (req_params_id req)) as [error|i];
    [inversion E; subst; discriminate|].
  destruct (req_user req) as [caller|]; [|discriminate].
  destruct (negb (String.eqb (claim_role caller) "admin")
            && negb (Z.eqb (claim_id caller) i)) eqn:C1;
    [inversion E; subst; discriminate|].
  destruct (String.eqb (claim_role caller) "admin" && Z.eqb (claim_id caller) i) eqn:C2;
    [inversion E; subst; discriminate|].
  destruct (by_id i db) as [u|] eqn:Hu;
    [|destruct (int4 i); inversion E; subst; discriminate].
  inversion E; subst. exists caller, i, u.
  repeat split; try reflexivity; try assumption;
    apply delete_checks_passed; assumption.
Qed.

(** ** What an update changes *)

Lemma others_updated (now : Z) (salt : Salt) (i : Z) (updates : Patch) (db : DB) :
  others i (updated now salt i updates db) = others i db.
Proof.
  unfold others, updated. simpl.
  induction (users_rows db) as [|r rows IH]; simpl; [reflexivity|].
  destruct (eq_id i r) eqn:E; simpl.
  - unfold eq_id in *. rewrite set_row_id, E. simpl. exact IH.
  - rewrite E. simpl. rewrite IH. reflexivity.
Qed.

Lemma by_id_updated (now : Z) (salt : Salt) (i : Z) (updates : Patch) (db : DB) :
  by_id i (updated now salt i updates db)
  = option_map (set_row (hash_updates salt updates) now) (by_id i db).
Proof.
  unfold updated. destruct db as [rows seq]. simpl users_rows. simpl users_id_seq.
  apply by_id_set.
Qed.

(** X6.  A successful update is confined to the rows of the given id:
    every other row is left exactly as it was, no row is added or
    removed, no id and no creation time changes, the id sequence stays,
    and every row of the given id gets the current time as [updated_at]. *)
Theorem update_frame
  (now : Z) (salt : Salt) (i : Z) (updates : Patch) (db db' : DB)
  (v : option UserView) :
  updateUserService now salt i updates db = (Ok v, db') ->
  others i db' = others i db
  /\ List.length (users_rows db') = List.length (users_rows db)
  /\ map users.id (users_rows db') = map users.id (users_rows db)
  /\ map users.created_at (users_rows db') = map users.created_at (users_rows db)
  /\ users_id_seq db' = users_id_seq db
  /\ forall r, In r (users_rows db') -> users.id r = i -> users.updated_at r = now.
Proof.
  intros E. rewrite updateUserService_eq in E.
  destruct (by_id i db) as [u|]; [|destruct (int4 i); discriminate].
  destruct (email_conflict updates i (users_rows db)); [discriminate|].
  inversion E; subst. clear E.
  split; [apply (others_updated now salt i updates db)|].
  split; [simpl; apply length_map|].
  split.
  { simpl. rewrite map_map. apply map_ext. intros r. destruct (eq_id i r); reflexivity. }
  split.
  { simpl. rewrite map_map. apply map_ext. intros r. destruct (eq_id i r); reflexivity. }
  split; [reflexivity|].
  intros r Hin Hid. simpl in Hin. apply in_map_iff in Hin.
  destruct Hin as [r0 [Hr0 _]].
  destruct (eq_id i r0) eqn:E0; subst r; [reflexivity|].
  unfold eq_id in E0. apply Z.eqb_neq in E0. contradiction.
Qed.


(** X8.  A non-admin caller can write to nothing but their own row and
    never to a role: when [updateUser] answers 200 to a caller whose
    token role is not [admin] (the patch being validated), every row with
    another id is unchanged and the stored roles are what they were. *)
Theorem non_admin_update_is_confined
  (now : Z) (salt : Salt) (req : Request) (caller : Claims) (updates : Patch)
  (db db' : DB) (res : Response) :
  req_user req = Some caller ->
  claim_role caller <> "admin" ->
  updateUserSchema (req_body req) = inr updates ->
  well_formed updates = true ->
  updateUser now salt req db = (Sent res, db') ->
  status res = 200 ->
  others (claim_id caller) db' = others (claim_id caller) db
  /\ map users.role (users_rows db') = map users.role (users_rows db)
  /\ map users.id (users_rows db') = map users.id (users_rows db).
Proof.
  intros Hc Hna Hu Hwf E S. rewrite updateUser_eq, Hu, Hc in E.
  destruct (userIdSchema (req_params_id req)) as [error|i];
    [inversion E; subst; discriminate|].
  destruct (negb (String.eqb (claim_role caller) "admin")
            && negb (Z.eqb (claim_id caller) i)) eqn:C1;
    [inversion E; subst; discriminate|].
  destruct (truthy_opt (p_role updates)
            && negb (String.eqb (claim_role caller) "admin")) eqn:C2;
    [inversion E; subst; discriminate|].
  destruct (by_id i db) as [u|];
    [|destruct (int4 i); inversion E; subst; discriminate].
  destruct (email_conflict updates i (users_rows db)); [discriminate|].
  inversion E; subst. clear E S.
  destruct (update_checks_passed caller i updates C1 C2) as [Ha | [Hi Hrole]];
    [contradiction|].
  subst i.
  assert (Hnone : p_role updates = None).
  { apply andb_prop in Hwf. destruct Hwf as [_ Hr].
    destruct (p_role updates) as [r|]; [|reflexivity].
    simpl in Hrole. congruence. }
  split; [apply others_updated|].
  split; simpl; rewrite map_map; apply map_ext; intros r;
    destruct (eq_id (claim_id caller) r); try reflexivity.
  simpl. rewrite hash_updates_role, Hnone. reflexivity.
Qed.

(** ** Lookups after a write *)

Lemma by_email_unique (rows : list users.row) (u : users.row) :
  NoDup (map users.email rows) -> In u rows ->
  find (eq_email (users.email u)) rows = Some u.
Proof.
  induction rows as [|x rows IH]; simpl; intros Hnd Hin; [contradiction|].
  inversion Hnd as [|? ? Hnotin Hnd']; subst.
  destruct Hin as [-> | Hin].
  - unfold eq_email. rewrite String.eqb_refl. reflexivity.
  - destruct (eq_email (users.email u) x) eqn:E.
    + unfold eq_email in E. apply String.eqb_eq in E.
      exfalso. apply Hnotin. rewrite E. apply in_map. exact Hin.
    + apply IH; assumption.
Qed.

Lemma by_id_found (i : Z) (u : users.row) (db : DB) :
  by_id i db = Some u -> In u (users_rows db) /\ users.id u = i.
Proof.
  intros H. apply by_id_int4 in H. destruct H as [_ H].
  apply find_some in H. destruct H as [Hin Hid].
  split; [exact Hin | apply Z.eqb_eq; exact Hid].
Qed.






(** X9.  Once a delete has succeeded, the id is gone for every later
    operation: get, update and a second delete of the same id all fail
    with "User not found" and change nothing. *)
Theorem delete_then_gone
  (i : Z) (db db' : DB) (d : option DeletedUser) :
  deleteUserService i db = (Ok d, db') ->
  getUserByIdService i db' = (Throw "User not found", db')
  /\ deleteUserService i db' = (Throw "User not found", db')
  /\ forall now salt updates,
       updateUserService now salt i updates db' = (Throw "User not found", db').
Proof.
  intros E. rewrite deleteUserService_eq in E.
  destruct (by_id i db) as [u|] eqn:Hu; [|destruct (int4 i); discriminate].
  destruct (by_id_int4 i u db Hu) as [R _].
  inversion E; subst. clear E.
  assert (G : by_id i (mkDB (filter (fun r => negb (eq_id i r)) (users_rows db))
                        (users_id_seq db)) = None) by apply by_id_removed.
  split; [rewrite getUserByIdService_eq, G, R; reflexivity|].
  split; [rewrite deleteUserService_eq, G, R; reflexivity|].
  intros now salt updates. rewrite updateUserService_eq, G, R. reflexivity.
Qed.



(** X12.  What a successful update returns is what a lookup then finds:
    the service never returns [undefined], the returned user carries the
    requested id, and [getUserById] on the resulting table returns the
    same projection. *)
Theorem update_then_lookup
  (now : Z) (salt : Salt) (i : Z) (updates : Patch) (db db' : DB)
  (v : option UserView) :
  updateUserService now salt i updates db = (Ok v, db') ->
  exists view,
    v = Some view
    /\ uv_id view = i
    /\ getUserByIdService i db' = (Ok view, db').
Proof.
  intros E. rewrite updateUserService_eq in E.
  destruct (by_id i db) as [u|] eqn:Hu; [|destruct (int4 i); discriminate].
  destruct (email_conflict updates i (users_rows db)); [discriminate|].
  inversion E; subst. clear E.
  exists (user_view (set_row (hash_updates salt updates) now u)).
  split; [reflexivity|].
  split; [simpl; apply (by_id_found i u db Hu)|].
  rewrite getUserByIdService_eq.
  change (mkDB _ _) with (updated now salt i updates db).
  rewrite by_id_updated, Hu. reflexivity.
Qed.

(** X13.  Changing the credentials takes effect at once.  On a table that
    satisfies its constraints, after an update that succeeds and carries
    a non-empty password, signing in with the email of the user it
    returned (the patch's email if it has one, the stored one otherwise)
    and the new password succeeds as that user; and if the patch changed
    the email, the old email no longer signs in.  The sign-in needs
    bcrypt's [compare] to accept what [hashSync] produced. *)
Theorem change_credentials_then_signin
  (now : Z) (salt : Salt) (i : Z) (updates : Patch) (pw : string)
  (db db' : DB) (v : option UserView) :
  (forall password rounds s,
     bcrypt_compare password (bcrypt_hashSync password rounds s) = true) ->
  consistent db ->
  updateUserService now salt i updates db = (Ok v, db') ->
  p_password updates = Some pw ->
  truthy pw = true ->
  exists view,
    v = Some view
    /\ (exists a,
          authenticateUser (mkSignInData (uv_email view) pw) db' = (Ok a, db')
          /\ au_id a = i /\ au_email a = uv_email view)
    /\ (forall u, by_id i db = Some u ->
          uv_email view = or_else (p_email updates) (users.email u))
    /\ (forall u pw0,
          by_id i db = Some u -> uv_email view <> users.email u ->
          authenticateUser (mkSignInData (users.email u) pw0) db'
          = (Throw "User not found", db')).
Proof.
  intros Hcmp Hc E Hp Ht. rewrite updateUserService_eq in E.
  destruct (by_id i db) as [u|] eqn:Hu; [|destruct (int4 i); discriminate].
  destruct (email_conflict updates i (users_rows db)) eqn:Hf; [discriminate|].
  inversion E; subst v db'. clear E.
  change (mkDB _ _) with (updated now salt i updates db).
  pose proof (updated_consistent now salt i updates u db Hc Hu Hf) as Hc'.
  destruct (by_id_found i u db Hu) as [Hin Hid].
  set (u' := set_row (hash_updates salt updates) now u).
  assert (Hmail : users.email u' = or_else (p_email updates) (users.email u))
    by (unfold u'; simpl; rewrite hash_updates_email; reflexivity).
  assert (Hin' : In u' (users_rows (updated now salt i updates db))).
  { unfold updated. simpl. apply in_map_iff. exists u. split; [|exact Hin].
    unfold eq_id. rewrite Hid, Z.eqb_refl. reflexivity. }
  exists (user_view u'). split; [reflexivity|]. cbn [user_view uv_email].
  split; [|split].
  - exists (auth_user u'). split; [|split; [exact Hid | reflexivity]].
    rewrite authenticateUser_eq. simpl si_email. simpl si_password.
    destruct Hc' as [_ [Hem' _]].
    pose proof (by_email_unique _ u' Hem' Hin') as F.
    unfold by_email.
    change (find _ _) with (find (eq_email (users.email u'))
                              (users_rows (updated now salt i updates db))).
    rewrite F.
    replace (users.password u') with (bcrypt_hashSync pw 12 salt)
      by (unfold u'; simpl; rewrite (hash_updates_password salt updates pw Hp Ht);
          reflexivity).
    rewrite Hcmp. reflexivity.
  - intros u0 Hu0. inversion Hu0; subst u0. exact Hmail.
  - intros u0 pw0 Hu0 Hne. inversion Hu0; subst u0.
    rewrite authenticateUser_eq. simpl si_email.
    destruct (by_email (users.email u) (updated now salt i updates db)) as [r'|] eqn:F;
      [|reflexivity].
    exfalso. apply find_some in F. destruct F as [Hr' Heq].
    unfold eq_email in Heq. apply String.eqb_eq in Heq.
    unfold updated in Hr'. simpl in Hr'. apply in_map_iff in Hr'.
    destruct Hr' as [r0 [Hr0 Hin0]].
    destruct (eq_id i r0) eqn:E0; subst r'.
    + apply Hne. destruct Hc as [Hnd _].
      pose proof (by_id_unique (users_rows db) r0 Hnd Hin0) as F1.
      unfold eq_id in E0. apply Z.eqb_eq in E0. rewrite E0 in F1.
      destruct (by_id_int4 i u db Hu) as [_ F2]. rewrite F1 in F2.
      inversion F2; subst r0. exact Heq.
    + destruct Hc as [_ [Hem _]].
      pose proof (by_email_unique (users_rows db) r0 Hem Hin0) as F1.
      pose proof (by_email_unique (users_rows db) u Hem Hin) as F2.
      rewrite Heq in F1. rewrite F1 in F2. inversion F2; subst r0.
      unfold eq_id in E0. rewrite Hid, Z.eqb_refl in E0. discriminate.
Qed.

(** ** The role guard *)

Lemma role_listed (role : string) (roles : list string) :
  existsb (String.eqb role) roles = true <-> In role roles.
Proof.
  rewrite existsb_exists. split.
  - intros [x [Hin He]]. apply String.eqb_eq in He. subst x. exact Hin.
  - intros Hin. exists role. split; [exact Hin | apply String.eqb_refl].
Qed.

Lemma requireRole_eq (roles : string + list string) (req : Request) (user : Claims) :
  req_user req = Some user ->
  requireRole roles req
  = if existsb (String.eqb (claim_role user)) (userRoles roles)
    then inr req else inl insufficient.
Proof.
  intros H. unfold requireRole. rewrite H.
  destruct (existsb (String.eqb (claim_role user)) (userRoles roles)); reflexivity.
Qed.

(** X14.  [requireRole]: a request without [req.user] is answered 401; an
    authenticated one passes unchanged when its role is among the
    allowed ones and is answered 403 otherwise (so an empty list lets
    nobody through); a single role means the same as the one-element
    list.  Placed after [authenticateToken], the guard never answers
    401: with a verified token the handler runs exactly when the role in
    the token is allowed, and otherwise the answer is the 403 and the
    database is untouched. *)
Theorem role_guard (roles : string + list string) (req : Request) :
  (req_user req = None ->
     exists res, requireRole roles req = inl res /\ status res = 401)
  /\ (forall user, req_user req = Some user ->
        In (claim_role user) (userRoles roles) -> requireRole roles req = inr req)
  /\ (forall user, req_user req = Some user ->
        ~ In (claim_role user) (userRoles roles) ->
        requireRole roles req = inl insufficient)
  /\ (forall r, requireRole (inl r) req = requireRole (inr [r]) req)
  /\ (forall t claims handler db,
        cookie_token req = Some t -> t <> "" -> jwt_verify t = Some claims ->
        (In (claim_role claims) (userRoles roles) ->
           through [AuthenticateToken; RequireRole roles] handler req db
           = handler (set_user req claims) db)
        /\ (~ In (claim_role claims) (userRoles roles) ->
              through [AuthenticateToken; RequireRole roles] handler req db
              = (Sent insufficient, db))).
Proof.
  split; [|split; [|split; [|split]]].
  - intros H. unfold requireRole. rewrite H. eexists. split; reflexivity.
  - intros user H Hin. rewrite (requireRole_eq roles req user H).
    apply role_listed in Hin. rewrite Hin. reflexivity.
  - intros user H Hout. rewrite (requireRole_eq roles req user H).
    destruct (existsb (String.eqb (claim_role user)) (userRoles roles)) eqn:E;
      [|reflexivity].
    apply role_listed in E. contradiction.
  - intros r. reflexivity.
  - intros t claims handler db Ht Hne Hv.
    assert (E : through [AuthenticateToken; RequireRole roles] handler req db
                = match requireRole roles (set_user req claims) with
                  | inl res => (Sent res, db)
                  | inr req' => handler req' db
                  end).
    { simpl. rewrite authenticateToken_eq, Ht, Hv.
      apply String.eqb_neq in Hne. rewrite Hne. reflexivity. }
    rewrite E, (requireRole_eq roles (set_user req claims) claims eq_refl).
    split; intros H.
    + apply role_listed in H. rewrite H. reflexivity.
    + destruct (existsb (String.eqb (claim_role claims)) (userRoles roles)) eqn:X;
        [|reflexivity].
      apply role_listed in X. contradiction.
Qed.

(** ** Tokens issued at sign-up and sign-in *)

Lemma cookie_passes (u : users.row) (res : Response) (id : string) (b : Json) :
  (forall c, jwt_verify (jwt_sign c) = Some c) ->
  (forall c, jwt_sign c <> "") ->
  res_cookies res = [("token", jwt_sign (claims_of u))] ->
  authenticateToken (mkRequest (Some (res_cookies res)) id b None)
  = inr (mkRequest (Some (res_cookies res)) id b (Some (claims_of u))).
Proof.
  intros Hvs Hne Hc. rewrite authenticateToken_eq. unfold cookie_token. simpl.
  rewrite Hc. simpl. rewrite Hvs.
  destruct (String.eqb _ "") eqn:T; [|reflexivity].
  apply String.eqb_eq in T. apply Hne in T. contradiction.
Qed.


(** X16.  Sign-in answers 200 only after validation, for an email that a
    row carries and a password that [compare] accepts against the hash
    stored in the first such row; it then writes nothing, returns that
    row's [{id, name, email, role}] and sets the cookie to that row's
    signed claims, so that (given [verify] decodes what [sign] produced)
    a request carrying the cookie is authenticated as that user with the
    role stored at the time of the sign-in. *)
Theorem signin_signs_token (req : Request) (db db' : DB) (res : Response) :
  signin req db = (Sent res, db') ->
  status res = 200 ->
  exists c u,
    signInSchema (req_body req) = inr c
    /\ by_email (si_email c) db = Some u
    /\ bcrypt_compare (si_password c) (users.password u) = true
    /\ db' = db
    /\ get "user" (body res) = Some (session_user u)
    /\ res_cookies res = [("token", jwt_sign (claims_of u))]
    /\ ((forall c, jwt_verify (jwt_sign c) = Some c) ->
        (forall c, jwt_sign c <> "") ->
        forall id b,
          authenticateToken (mkRequest (Some (res_cookies res)) id b None)
          = inr (mkRequest (Some (res_cookies res)) id b (Some (claims_of u)))).
Proof.
  intros E S. rewrite signin_eq in E.
  destruct (signInSchema (req_body req)) as [error|c];
    [destruct (nullish (req_body req)); inversion E; subst; discriminate|].
  destruct (by_email (si_email c) db) as [u|] eqn:Hu; [|inversion E; subst; discriminate].
  destruct (bcrypt_compare (si_password c) (users.password u)) eqn:Hcmp;
    [|inversion E; subst; discriminate].
  inversion E; subst. clear E S.
  exists c, u. repeat split; try reflexivity; try assumption.
  intros Hvs Hne id b. apply cookie_passes; [exact Hvs | exact Hne | reflexivity].
Qed.

(** ** Errors and what reaches the catch-all handler *)



(** X19.  No answer other than a 400 carries a password: for each of the
    six operations, a response whose status is not 400 has no [password]
    field anywhere in its body, neither the stored hash nor what the
    request sent. *)
Theorem only_400_bodies_mention_password
  (now : Z) (salt : Salt) (req : Request) (db db' : DB) (res : Response) :
  status res <> 400 ->
  (signup now salt req db = (Sent res, db') -> mentions "password" (body res) = false)
  /\ (signin req db = (Sent res, db') -> mentions "password" (body res) = false)
  /\ (getAllUsers req db = (Sent res, db') -> mentions "password" (body res) = false)
  /\ (getUserById req db = (Sent res, db') -> mentions "password" (body res) = false)
  /\ (updateUser now salt req db = (Sent res, db') ->
      mentions "password" (body res) = false)
  /\ (deleteUser req db = (Sent res, db') -> mentions "password" (body res) = false).
Proof.
  intros S. split; [|split; [|split; [|split; [|split]]]]; intros E.
  - exact (signup_hides_password now salt req db db' res E S).
  - exact (signin_hides_password req db db' res E S).
  - exact (getAllUsers_hides_password req db db' res E).
  - exact (getUserById_hides_password req db db' res E S).
  - exact (updateUser_hides_password now salt req db db' res E S).
  - exact (deleteUser_hides_password req db db' res E S).
Qed.


End Coverage.

(** * The model on the reference instance *)

#[local] Abbreviation run_createUser := (@createUser Reference.bcrypt).
#[local] Abbreviation run_authenticateUser := (@authenticateUser Reference.bcrypt).
#[local] Abbreviation run_signup :=
  (@signup Reference.bcrypt Reference.jwttoken Reference.zod).
#[local] Abbreviation run_signin :=
  (@signin Reference.bcrypt Reference.jwttoken Reference.zod).
#[local] Abbreviation run_updateUser := (@updateUser Reference.bcrypt Reference.zod).
#[local] Abbreviation run_deleteUser := (@deleteUser Reference.zod).
#[local] Abbreviation run_through := (@through Reference.jwttoken).
#[local] Abbreviation run_serve :=
  (@serve Reference.bcrypt Reference.jwttoken Reference.zod).

Import Reference.

Lemma reference_compare_hashSync (password : string) (rounds : Z) (salt : ascii) :
  @bcrypt_compare Reference.bcrypt password
    (@bcrypt_hashSync Reference.bcrypt password rounds salt) = true.
Proof. simpl. apply String.eqb_refl. Qed.

Lemma dec_enc_nat (n : nat) (rest : string) : dec_nat (enc_nat n rest) = Some (n, rest).
Proof.
  induction n as [|n IH]; simpl; [reflexivity|].
  rewrite IH. reflexivity.
Qed.

Lemma split_at_append (a b : string) :
  split_at (String.length a) (a ++ b) = Some (a, b).
Proof.
  induction a as [|c a IH]; simpl; [reflexivity|].
  rewrite IH. reflexivity.
Qed.

Lemma reference_verify_sign (c : Claims) : verify (sign c) = Some c.
Proof.
  destruct c as [i e r]. unfold sign, verify. simpl claim_id. simpl claim_email.
  simpl claim_role.
  rewrite dec_enc_nat, dec_enc_nat, split_at_append.
  destruct (i <? 0) eqn:Hs; simpl.
  - apply Z.ltb_lt in Hs. f_equal. f_equal. lia.
  - apply Z.ltb_ge in Hs. f_equal. f_equal. lia.
Qed.

Lemma reference_sign_nonempty (c : Claims) : sign c <> "".
Proof. unfold sign. discriminate. Qed.

Lemma db0_consistent : consistent db0.
Proof.
  unfold consistent, db0. simpl. repeat split.
  - repeat constructor; simpl; intuition discriminate.
  - repeat constructor; simpl; intuition discriminate.
  - intros r [<- | [<- | []]]; simpl; lia.
Qed.


(** An unknown address is answered 404, a wrong password 401, the right
    one 200. *)
Lemma authenticate_three_outcomes_witness :
  run_authenticateUser (mkSignInData "nobody@example.com" "x") db0
  = (Throw "User not found", db0)
  /\ run_authenticateUser (mkSignInData "john@example.com" "wrong") db0
     = (Throw "Invalid password", db0)
  /\ run_authenticateUser (mkSignInData "john@example.com" "password123") db0
     = (Ok (auth_user john_row), db0)
  /\ exists res,
       run_signin (sign_in "john@example.com" "wrong") db0 = (Sent res, db0)
       /\ status res = 401.
Proof.
  destruct (@authenticate_three_outcomes Reference.bcrypt Reference.jwttoken Reference.zod
              (mkSignInData "nobody@example.com" "x") db0) as [H404 _].
  destruct (@authenticate_three_outcomes Reference.bcrypt Reference.jwttoken Reference.zod
              (mkSignInData "john@example.com" "wrong") db0) as [_ [H401 [_ Hc]]].
  destruct (@authenticate_three_outcomes Reference.bcrypt Reference.jwttoken Reference.zod
              (mkSignInData "john@example.com" "password123") db0) as [_ [_ [H200 _]]].
  split; [exact (H404 eq_refl)|].
  split; [exact (H401 john_row eq_refl eq_refl)|].
  split; [exact (H200 john_row eq_refl eq_refl)|].
  destruct (Hc (sign_in "john@example.com" "wrong") eq_refl) as [res [E Hs]].
  exists res. split; [exact E|].
  destruct Hs as [[_ Hn] | [[S _] | [_ [user [Hu [Ht _]]]]]].
  - cbv in Hn. discriminate Hn.
  - exact S.
  - cbv in Hu. inversion Hu; subst user. cbv in Ht. discriminate Ht.
Defined.








(** On the list route: no cookie, 401; a token that does not verify, 401,
    whatever the handler; John's token, the handler runs with John's
    claims in [req.user]. *)
Lemma token_gate_witness :
  (exists res, status res = 401
     /\ forall handler db,
          run_through (middleware list_route) handler (anonymous "" JNull) db
          = (Sent res, db))
  /\ (exists res, status res = 401
        /\ forall handler db,
             run_through (middleware list_route) handler (with_cookie "garbage" "" JNull) db
             = (Sent res, db))
  /\ (forall handler db,
        run_through (middleware list_route) handler
          (with_cookie (sign john_claims) "" JNull) db
        = handler (set_user (with_cookie (sign john_claims) "" JNull) john_claims) db).
Proof.
  assert (Hin : In list_route router) by (left; reflexivity).
  split.
  { destruct (@token_gate Reference.jwttoken list_route (anonymous "" JNull) Hin)
      as [H _].
    apply H. reflexivity. }
  split.
  { destruct (@token_gate Reference.jwttoken list_route (with_cookie "garbage" "" JNull) Hin)
      as [_ [H _]].
    apply (H "garbage"); reflexivity. }
  destruct (@token_gate Reference.jwttoken list_route
              (with_cookie (sign john_claims) "" JNull) Hin)
    as [_ [_ [H _]]].
  apply (H (sign john_claims) john_claims); [reflexivity | discriminate | reflexivity].
Defined.

(** Mary's sign-up sets the cookie to her signed claims, and a request
    carrying it is authenticated as Mary. *)
Lemma signup_signs_token_witness :
  exists res u,
    run_signup 300 "$"%char (sign_up mary) db0 = (Sent res, db1)
    /\ by_email (users.email u) db1 = Some u
    /\ res_cookies res
       = [("token", sign (mkClaims (users.id u) (users.email u) (users.role u)))]
    /\ @authenticateToken Reference.jwttoken (mkRequest (Some (res_cookies res)) "" JNull None)
       = inr (mkRequest (Some (res_cookies res)) "" JNull
                (Some (mkClaims (users.id u) (users.email u) (users.role u)))).
Proof.
  destruct (@signup_signs_token Reference.bcrypt Reference.jwttoken Reference.zod
              300 "$"%char (sign_up mary) db0 db1 _ eq_refl eq_refl)
    as [u [_ [Hu [_ [Hc Ha]]]]].
  eexists. exists u.
  split; [reflexivity|]. split; [exact Hu|]. split; [exact Hc|].
  exact (Ha reference_verify_sign reference_sign_nonempty "" JNull).
Defined.

(** John, an ordinary user, lists every user and reads Ada's record. *)
Lemma reads_unrestricted_witness :
  run_serve 0 "$"%char list_route (with_cookie (sign john_claims) "1" JNull) db0
  = (Sent (mkResponse 200
             (JObj [("success", JBool true);
                    ("message", JStr "All users retrieved successfully");
                    ("users",
                     JArr [JObj [("id", JNum 1); ("email", JStr "ada@example.com");
                                 ("name", JStr "Ada"); ("role", JStr "admin");
                                 ("created_at", JNum 100); ("updated_at", JNum 100)];
                           JObj [("id", JNum 2); ("email", JStr "john@example.com");
                                 ("name", JStr "John"); ("role", JStr "user");
                                 ("created_at", JNum 200); ("updated_at", JNum 200)]]);
                    ("count", JNum 2)])
             []), db0)
  /\ run_serve 0 "$"%char get_route (with_cookie (sign john_claims) "1" JNull) db0
     = (Sent (mkResponse 200
                (JObj [("success", JBool true);
                       ("message", JStr "User retrieved successfully");
                       ("user",
                        JObj [("id", JNum 1); ("email", JStr "ada@example.com");
                              ("name", JStr "Ada"); ("role", JStr "admin");
                              ("created_at", JNum 100); ("updated_at", JNum 100)])])
                []), db0)
  /\ (exists res,
        run_serve 0 "$"%char get_route (with_cookie (sign john_claims) "1" JNull) db0
        = (Sent res, db0)
        /\ status res = 200
        /\ get_path ["user"; "role"] (body res) = Some (JStr "admin"))
  /\ forall r, In r router -> existsb is_requireRole (middleware r) = false.
Proof.
  assert (Hneq : sign john_claims <> "") by apply reference_sign_nonempty.
  destruct (@reads_unrestricted Reference.bcrypt Reference.jwttoken Reference.zod
              0 "$"%char (with_cookie (sign john_claims) "1" JNull)
              (sign john_claims) john_claims db0 eq_refl Hneq eq_refl)
    as [Hlist [Hget [Hany Hnone]]].
  split; [exact (Hlist list_route (or_introl eq_refl) eq_refl)|].
  split; [exact (Hget get_route 1 admin_row (or_intror (or_introl eq_refl))
                   eq_refl eq_refl eq_refl)|].
  split; [|exact Hnone].
  destruct (Hany get_route admin_row (or_intror (or_introl eq_refl)) eq_refl
              db0_consistent (or_introl eq_refl) eq_refl eq_refl)
    as [res [E [S [_ [_ [_ R]]]]]].
  exists res. split; [exact E|]. split; [exact S | exact R].
Defined.

(** C6.  A sign-up whose body lacks the required name is rejected with
    400, and the response carries the request body back under [data]:
    the plaintext password travels in a response body.  Sign-in does the
    same with a body that lacks the email. *)
Theorem rejected_body_echoes_password :
  (exists res,
     run_signup 300 "$"%char
       (anonymous "" (JObj [("email", JStr "john@example.com");
                            ("password", JStr "password123")])) db0
     = (Sent res, db0)
     /\ status res = 400
     /\ get_path ["data"; "password"] (body res) = Some (JStr "password123")
     /\ mentions "password" (body res) = true)
  /\ (exists res,
        run_signin (anonymous "" (JObj [("password", JStr "password123")])) db0
        = (Sent res, db0)
        /\ status res = 400
        /\ get_path ["data"; "password"] (body res) = Some (JStr "password123")
        /\ mentions "password" (body res) = true).
Proof.
  split; eexists; (split; [reflexivity|]); repeat split; reflexivity.
Qed.

(** * The further properties on the reference instance *)

Import Scenario.

#[local] Abbreviation run_updated := (@updated Reference.bcrypt).
#[local] Abbreviation run_inserted := (@inserted Reference.bcrypt).
#[local] Abbreviation run_new_row := (@new_row Reference.bcrypt).
#[local] Abbreviation run_updateUserService := (@updateUserService Reference.bcrypt).

Lemma reference_update_schema_well_formed (b : Json) (updates : Patch) :
  update_schema b = inr updates -> well_formed updates = true.
Proof.
  unfold update_schema, well_formed.
  destruct (opt_str_field "name" b) as [n|]; [|discriminate].
  destruct (opt_str_field "email" b) as [e|]; [|discriminate].
  destruct (opt_str_field "password" b) as [p|] eqn:Hp; [|discriminate].
  destruct (role_field b) as [r|] eqn:Hr; [|discriminate].
  intros H. inversion H; subst. clear H. simpl.
  apply andb_true_intro. split.
  - destruct p as [pw|]; [|reflexivity].
    unfold opt_str_field in Hp.
    destruct (get "password" b) as [[| | |s| | |]|]; try discriminate.
    destruct (truthy s) eqn:T; [|discriminate]. inversion Hp; subst. exact T.
  - destruct r as [role|]; [|reflexivity].
    unfold role_field in Hr.
    destruct (get "role" b) as [[| | |s| | |]|]; try discriminate.
    destruct (known_role s) eqn:K; [|discriminate]. inversion Hr; subst.
    unfold known_role in K. apply orb_prop in K.
    destruct K as [K | K]; apply String.eqb_eq in K; subst; reflexivity.
Qed.

Lemma db0_hashed : @all_hashed Reference.bcrypt db0.
Proof.
  unfold all_hashed, db0. simpl.
  constructor; [exists "admin-pass", "#"%char; reflexivity|].
  constructor; [exists "password123", "#"%char; reflexivity|].
  constructor.
Qed.

(** Mary's registration and Ada's delete keep the constraints of the
    table. *)
Lemma controllers_keep_constraints_witness :
  consistent (snd (run_signup 300 "$"%char (sign_up mary) db0))
  /\ consistent (snd (run_deleteUser ada_deletes_john db0)).
Proof.
  destruct (@controllers_keep_constraints Reference.bcrypt Reference.jwttoken Reference.zod
              300 "$"%char (sign_up mary) db0 db0_consistent) as [H1 _].
  destruct (@controllers_keep_constraints Reference.bcrypt Reference.jwttoken Reference.zod
              300 "$"%char ada_deletes_john db0 db0_consistent)
    as [_ [_ [_ [_ [_ H2]]]]].
  split; assumption.
Defined.

(** John's change of password keeps every stored password hashed. *)
Lemma controllers_keep_passwords_hashed_witness :
  @all_hashed Reference.bcrypt
    (snd (run_updateUser 900 "$"%char (john_updates new_password_body) db0)).
Proof.
  destruct (@controllers_keep_passwords_hashed
              Reference.bcrypt Reference.jwttoken Reference.zod
              900 "$"%char (john_updates new_password_body) db0
              reference_update_schema_well_formed db0_hashed)
    as [_ [_ [_ [_ [H _]]]]].
  exact H.
Defined.

(** A sign-up with a taken email and John's attempt on Ada's profile
    write nothing. *)
Lemma only_success_writes_witness :
  snd (run_signup 300 "$"%char (sign_up johnny) db0) = db0
  /\ snd (run_updateUser 900 "$"%char
            (as_user john_claims "1" (JObj [("name", JStr "Eve")])) db0) = db0.
Proof.
  destruct (@only_success_writes Reference.bcrypt Reference.jwttoken Reference.zod
              300 "$"%char (sign_up johnny) db0) as [_ [_ [_ [H1 _]]]].
  destruct (@only_success_writes Reference.bcrypt Reference.jwttoken Reference.zod
              900 "$"%char (as_user john_claims "1" (JObj [("name", JStr "Eve")])) db0)
    as [_ [_ [_ [_ [H2 _]]]]].
  split; [apply H1 | apply H2]; reflexivity.
Defined.

(** John's own change of password is answered 200: he is the target and
    sends no role. *)
Lemma update_only_when_authorised_witness :
  exists caller i updates u,
    req_user (john_updates new_password_body) = Some caller
    /\ user_id_schema (req_params_id (john_updates new_password_body)) = inr i
    /\ update_schema (req_body (john_updates new_password_body)) = inr updates
    /\ (claim_role caller = "admin"
        \/ (claim_id caller = i /\ truthy_opt (p_role updates) = false))
    /\ by_id i db0 = Some u.
Proof.
  destruct (@update_only_when_authorised Reference.bcrypt Reference.zod
              900 "$"%char (john_updates new_password_body) db0 _ _ eq_refl eq_refl)
    as [caller [i [updates [u [H1 [H2 [H3 [H4 [H5 _]]]]]]]]].
  exists caller, i, updates, u. repeat split; assumption.
Defined.

(** Ada's delete of John is answered 200: she is an admin naming another
    id. *)
Lemma delete_only_when_authorised_witness :
  exists caller i u,
    req_user ada_deletes_john = Some caller
    /\ may_delete caller i
    /\ by_id i db0 = Some u
    /\ snd (run_deleteUser ada_deletes_john db0) = deleted i db0.
Proof.
  destruct (@delete_only_when_authorised Reference.zod ada_deletes_john db0 _ _
              eq_refl eq_refl)
    as [caller [i [u [H1 [_ [H3 [H4 H5]]]]]]].
  exists caller, i, u. repeat split; assumption.
Defined.

(** John's change of password leaves Ada's row, the ids and the sequence
    alone. *)
Lemma update_frame_witness :
  others 2 (run_updated 900 "$"%char 2 new_password db0) = others 2 db0
  /\ users_id_seq (run_updated 900 "$"%char 2 new_password db0) = 3.
Proof.
  destruct (@update_frame Reference.bcrypt 900 "$"%char 2 new_password db0
              (@updated Reference.bcrypt 900 "$"%char 2 new_password db0) _ eq_refl)
    as [H1 [_ [_ [_ [H5 _]]]]].
  split; assumption.
Defined.


(** John's change of password touches only his row and no role. *)
Lemma non_admin_update_is_confined_witness :
  others 2 (snd (run_updateUser 900 "$"%char (john_updates new_password_body) db0))
  = others 2 db0
  /\ map users.role
       (users_rows (snd (run_updateUser 900 "$"%char (john_updates new_password_body) db0)))
     = ["admin"; "user"].
Proof.
  assert (Hna : claim_role john_claims <> "admin") by discriminate.
  destruct (@non_admin_update_is_confined Reference.bcrypt Reference.zod
              900 "$"%char (john_updates new_password_body) john_claims new_password
              db0 _ _ eq_refl Hna eq_refl eq_refl eq_refl eq_refl)
    as [H1 [H2 _]].
  split; assumption.
Defined.

(** Once Ada has deleted John, id 2 is gone for get, update and delete. *)
Lemma delete_then_gone_witness :
  @getUserByIdService 2 without_john = (Throw "User not found", without_john)
  /\ @deleteUserService 2 without_john = (Throw "User not found", without_john)
  /\ run_updateUserService 900 "$"%char 2 new_password without_john
     = (Throw "User not found", without_john).
Proof.
  destruct (@delete_then_gone Reference.bcrypt 2 db0 without_john
              (Some (deleted_user john_row)) eq_refl)
    as [H1 [H2 H3]].
  split; [exact H1|]. split; [exact H2 | apply H3].
Defined.



(** What John's update returns is what a lookup of id 2 then finds. *)
Lemma update_then_lookup_witness :
  exists view,
    uv_id view = 2
    /\ @getUserByIdService 2 (run_updated 900 "$"%char 2 new_password db0)
       = (Ok view, run_updated 900 "$"%char 2 new_password db0).
Proof.
  destruct (@update_then_lookup Reference.bcrypt 900 "$"%char 2 new_password db0
              (run_updated 900 "$"%char 2 new_password db0) _ eq_refl)
    as [view [_ [H2 H3]]].
  exists view. split; assumption.
Defined.

(** John changes his email and password: the update returns the new
    email, the new pair signs in as user 2 and the old email is unknown. *)
Lemma change_credentials_then_signin_witness :
  exists view db',
    run_updateUserService 900 "$"%char 2 new_credentials db0 = (Ok (Some view), db')
    /\ uv_email view = "johnny@example.com"
    /\ (exists a,
          run_authenticateUser (mkSignInData "johnny@example.com" "newpass1") db'
          = (Ok a, db')
          /\ au_id a = 2)
    /\ run_authenticateUser (mkSignInData "john@example.com" "password123") db'
       = (Throw "User not found", db').
Proof.
  destruct (@change_credentials_then_signin Reference.bcrypt 900 "$"%char 2
              new_credentials "newpass1" db0
              (run_updated 900 "$"%char 2 new_credentials db0) _
              reference_compare_hashSync db0_consistent eq_refl eq_refl eq_refl)
    as [view [Hv [[a [H1 [H1' _]]] [Hmail H2]]]].
  injection Hv as Hv. subst view.
  eexists. eexists. split; [reflexivity|]. split; [reflexivity|].
  split; [exists a; split; [exact H1 | exact H1']|].
  apply (H2 john_row "password123"); [reflexivity | discriminate].
Defined.

(** With John's token, a guard for admins answers 403 and a guard for
    users lets the handler run. *)
Lemma role_guard_witness :
  (forall handler db,
     run_through [AuthenticateToken; RequireRole (inl "admin")] handler
       (with_cookie (sign john_claims) "" JNull) db
     = (Sent insufficient, db))
  /\ (forall handler db,
        run_through [AuthenticateToken; RequireRole (inr ["user"; "admin"])] handler
          (with_cookie (sign john_claims) "" JNull) db
        = handler (set_user (with_cookie (sign john_claims) "" JNull) john_claims) db).
Proof.
  assert (Hne : sign john_claims <> "") by apply reference_sign_nonempty.
  split; intros handler db.
  - destruct (@role_guard Reference.jwttoken (inl "admin")
                (with_cookie (sign john_claims) "" JNull))
      as [_ [_ [_ [_ H]]]].
    destruct (H (sign john_claims) john_claims handler db eq_refl Hne eq_refl) as [_ H403].
    apply H403. simpl. intros [E | []]. discriminate E.
  - destruct (@role_guard Reference.jwttoken (inr ["user"; "admin"])
                (with_cookie (sign john_claims) "" JNull))
      as [_ [_ [_ [_ H]]]].
    destruct (H (sign john_claims) john_claims handler db eq_refl Hne eq_refl) as [Hpass _].
    apply Hpass. left. reflexivity.
Defined.


(** John's sign-in sets a cookie that authenticates him. *)
Lemma signin_signs_token_witness :
  exists res u,
    run_signin (sign_in "john@example.com" "password123") db0 = (Sent res, db0)
    /\ by_email "john@example.com" db0 = Some u
    /\ @authenticateToken Reference.jwttoken
         (mkRequest (Some (res_cookies res)) "" JNull None)
       = inr (mkRequest (Some (res_cookies res)) "" JNull (Some (claims_of u))).
Proof.
  destruct (@signin_signs_token Reference.bcrypt Reference.jwttoken Reference.zod
              (sign_in "john@example.com" "password123") db0 db0 _ eq_refl eq_refl)
    as [c [u [Hv [Hu [_ [_ [_ [_ Ha]]]]]]]].
  eexists. exists u. split; [reflexivity|].
  split; [injection Hv as Hv; subst c; exact Hu|].
  exact (Ha reference_verify_sign reference_sign_nonempty "" JNull).
Defined.



(** Mary's 201 carries no password field. *)
Lemma only_400_bodies_mention_password_witness :
  exists res,
    run_signup 300 "$"%char (sign_up mary) db0 = (Sent res, db1)
    /\ mentions "password" (body res) = false.
Proof.
  eexists. split; [reflexivity|].
  refine (proj1 (@only_400_bodies_mention_password
                   Reference.bcrypt Reference.jwttoken Reference.zod
                   300 "$"%char (sign_up mary) db0 db1 _ _) eq_refl).
  simpl. lia.
Defined.

